(** * Country inference and English-speaker labelling

    A shallow embedding of [country_matching.py] and
    [add_english_labels.py], and the properties of the label-assignment
    engine proved over it.

    Conventions of the embedding.
    - A Python [str] is a Rocq [string]; the model is exact on ASCII text
      (one character per code point), which is what the e-mail domain
      pattern and the country codes of the reference tables produce.
    - A Python [dict] that is only looked up is a [gmap string _]; the
      institution table, which the fuzzy matcher iterates in insertion
      order, is an association list.
    - A Python [set] of country codes is a [gset string].
    - A pandas cell that may be missing is an [option]; the stored label,
      which is coerced through [float], has a type of its own.
    - Exceptions are explicit: a function that can raise returns an
      [outcome]. *)

From Stdlib Require Import QArith Ascii String.
From stdpp Require Import gmap strings list fin_maps sorting.

Local Open Scope Z_scope.

(** ** Python string primitives *)

Module PyStr.

Definition code (c : ascii) : nat := nat_of_ascii c.

(** [str.isspace] on one ASCII character: TAB, LF, VT, FF, CR, the four
    separators 0x1c-0x1f and the blank. *)
Definition isspace (c : ascii) : bool :=
  let n := code c in
  ((9 <=? n) && (n <=? 13) || (28 <=? n) && (n <=? 32))%nat.

Definition isupper (c : ascii) : bool :=
  let n := code c in ((65 <=? n) && (n <=? 90))%nat.

Definition isalpha (c : ascii) : bool :=
  let n := code c in
  ((65 <=? n) && (n <=? 90) || (97 <=? n) && (n <=? 122))%nat.

Definition isdigit (c : ascii) : bool :=
  let n := code c in ((48 <=? n) && (n <=? 57))%nat.

(** The class [\w] of [re] on ASCII text. *)
Definition isword (c : ascii) : bool :=
  isalpha c || isdigit c || bool_decide (c = "_"%char).

Definition lower_char (c : ascii) : ascii :=
  if isupper c then ascii_of_nat (code c + 32) else c.

(** [s.lower()] *)
Fixpoint lower (s : string) : string :=
  match s with
  | EmptyString => EmptyString
  | String c s' => String (lower_char c) (lower s')
  end.

(** [s.lstrip()] *)
Fixpoint lstrip (s : string) : string :=
  match s with
  | EmptyString => EmptyString
  | String c s' => if isspace c then lstrip s' else s
  end.

(** [s.rstrip()]: a character is dropped when it is white space and
    everything after it has been dropped. *)
Fixpoint rstrip (s : string) : string :=
  match s with
  | EmptyString => EmptyString
  | String c s' =>
      match rstrip s' with
      | EmptyString => if isspace c then EmptyString else String c EmptyString
      | r => String c r
      end
  end.

(** [s.strip()] *)
Definition strip (s : string) : string := rstrip (lstrip s).

(** [s.split(sep)] for a one-character separator: never empty, the
    pieces are the maximal runs between separators. *)
Fixpoint split (sep : ascii) (s : string) : list string :=
  match s with
  | EmptyString => [EmptyString]
  | String c s' =>
      if bool_decide (c = sep) then EmptyString :: split sep s'
      else match split sep s' with
           | p :: ps => String c p :: ps
           | [] => [String c EmptyString]
           end
  end.

(** [sep.join(parts)] *)
Definition join (sep : string) (parts : list string) : string :=
  String.concat sep parts.

(** [needle in hay] *)
Fixpoint contains (needle hay : string) : bool :=
  String.prefix needle hay
  || match hay with
     | EmptyString => false
     | String _ hay' => contains needle hay'
     end.

(** [s.startswith(p)] *)
Definition startswith (p s : string) : bool := String.prefix p s.

(** [s.replace(w, '')] for a non-empty [w]: occurrences are found left
    to right and do not overlap; [skip] counts the characters of the
    occurrence being removed that are still to be dropped. *)
Fixpoint remove_from (w : string) (skip : nat) (s : string) : string :=
  match s with
  | EmptyString => EmptyString
  | String c s' =>
      match skip with
      | S k => remove_from w k s'
      | O =>
          if String.prefix w s
          then remove_from w (Nat.pred (String.length w)) s'
          else String c (remove_from w 0 s')
      end
  end.

Definition remove (w s : string) : string :=
  match w with
  | EmptyString => s
  | _ => remove_from w 0 s
  end.

(** [re.sub(r'[^\w\s]', '', s)] *)
Fixpoint drop_punctuation (s : string) : string :=
  match s with
  | EmptyString => EmptyString
  | String c s' =>
      if isword c || isspace c then String c (drop_punctuation s')
      else drop_punctuation s'
  end.

(** [re.sub(r'\s+', ' ', s)]: [in_run] tells that the previous
    character was white space, so the run has been replaced already. *)
Fixpoint collapse_from (in_run : bool) (s : string) : string :=
  match s with
  | EmptyString => EmptyString
  | String c s' =>
      if isspace c
      then if in_run then collapse_from true s'
           else String " "%char (collapse_from true s')
      else String c (collapse_from false s')
  end.

Definition collapse_spaces (s : string) : string := collapse_from false s.

(** The last element of a non-empty list of pieces, [parts[-1]]. *)
Definition last_part (parts : list string) : string :=
  List.last parts EmptyString.

End PyStr.

(** ** Exceptions *)

Inductive pyexn : Type :=
| AttributeError
| TypeError
| ValueError
| OverflowError.

Global Instance pyexn_eq_dec : EqDecision pyexn.
Proof. solve_decision. Defined.

(** What a call does: it returns a value or raises. *)
Inductive outcome (A : Type) : Type :=
| Returned (a : A)
| Raised (e : pyexn).

Arguments Returned {A} a.
Arguments Raised {A} e.

Global Instance outcome_ret : MRet outcome := fun A a => Returned a.

Global Instance outcome_bind : MBind outcome := fun A B f m =>
  match m with
  | Returned a => f a
  | Raised e => Raised e
  end.

(** [try: body except handled: return fallback] *)
Definition try_except {A : Type} (body : outcome A) (handled : list pyexn)
    (fallback : A) : outcome A :=
  match body with
  | Returned a => Returned a
  | Raised e => if bool_decide (e ∈ handled) then Returned fallback else Raised e
  end.

(** [for x in xs: acc = step acc x], where a step may raise. *)
Fixpoint for_each {A S : Type} (step : S -> A -> outcome S) (xs : list A)
    (acc : S) : outcome S :=
  match xs with
  | [] => Returned acc
  | x :: xs' => acc' ← step acc x; for_each step xs' acc'
  end.

(** ** Python dictionaries in insertion order *)

Module Dict.

Fixpoint get {V : Type} (k : string) (d : list (string * V)) : option V :=
  match d with
  | [] => None
  | (k', v) :: d' => if bool_decide (k = k') then Some v else get k d'
  end.

(** [d[k] = v]: an existing key keeps its position. *)
Fixpoint set {V : Type} (k : string) (v : V) (d : list (string * V))
    : list (string * V) :=
  match d with
  | [] => [(k, v)]
  | (k', v') :: d' =>
      if bool_decide (k = k') then (k, v) :: d' else (k', v') :: set k v d'
  end.

End Dict.

(** ** country_matching.py *)

(** The value [json.loads] produces. Numbers are rationals; a number is
    falsy exactly when it is zero. An object is the association list of
    its members, keys distinct, in document order. *)
#[warnings="-register-all"]
Inductive json : Type :=
| JNull
| JBool (b : bool)
| JNum (q : Q)
| JStr (s : string)
| JArr (items : list json)
| JObj (members : list (string * json)).

(** What the caller may hand to [extract_institutions_from_education]:
    [None], the float NaN, a string, or any other object, of which only
    its [str()] matters. *)
Inductive pyvalue : Type :=
| VNone
| VNan
| VStr (s : string)
| VOther (repr : string).

Module CountryMatching.

(** Common email domains to ignore *)
Definition COMMON_EMAIL_DOMAINS : gset string :=
  list_to_set
    [ "gmail.com"; "yahoo.com"; "hotmail.com"; "outlook.com"; "icloud.com";
      "aol.com"; "live.com"; "msn.com"; "protonmail.com"; "yandex.com";
      "mail.ru"; "qq.com"; "163.com"; "sina.com"; "sohu.com" ].

Definition TLD_TABLE : list (string * string) :=
  [ (".cn", "CN"); (".in", "IN"); (".uk", "GB"); (".ca", "CA"); (".au", "AU");
    (".de", "DE"); (".fr", "FR"); (".jp", "JP"); (".kr", "KR"); (".sg", "SG");
    (".hk", "HK"); (".tw", "TW"); (".my", "MY"); (".th", "TH"); (".ph", "PH");
    (".id", "ID"); (".vn", "VN"); (".bd", "BD"); (".pk", "PK"); (".lk", "LK");
    (".np", "NP"); (".mm", "MM"); (".kh", "KH"); (".la", "LA"); (".bn", "BN");
    (".mx", "MX"); (".br", "BR"); (".ar", "AR"); (".cl", "CL"); (".co", "CO");
    (".pe", "PE"); (".ve", "VE"); (".ec", "EC"); (".uy", "UY"); (".py", "PY");
    (".bo", "BO"); (".za", "ZA"); (".ng", "NG"); (".ke", "KE"); (".eg", "EG");
    (".ma", "MA"); (".tn", "TN"); (".dz", "DZ"); (".ru", "RU"); (".ua", "UA");
    (".by", "BY"); (".kz", "KZ"); (".uz", "UZ"); (".kg", "KG"); (".tj", "TJ");
    (".tm", "TM"); (".af", "AF"); (".ir", "IR"); (".iq", "IQ"); (".sy", "SY");
    (".lb", "LB"); (".jo", "JO"); (".il", "IL"); (".ps", "PS"); (".sa", "SA");
    (".ae", "AE"); (".qa", "QA"); (".kw", "KW"); (".bh", "BH"); (".om", "OM");
    (".ye", "YE"); (".tr", "TR"); (".cy", "CY"); (".gr", "GR"); (".bg", "BG");
    (".ro", "RO"); (".md", "MD"); (".hu", "HU"); (".sk", "SK"); (".cz", "CZ");
    (".pl", "PL"); (".lt", "LT"); (".lv", "LV"); (".ee", "EE"); (".fi", "FI");
    (".se", "SE"); (".no", "NO"); (".dk", "DK"); (".is", "IS"); (".ie", "IE");
    (".pt", "PT"); (".es", "ES"); (".it", "IT"); (".ch", "CH"); (".at", "AT");
    (".be", "BE"); (".nl", "NL"); (".lu", "LU"); (".nz", "NZ") ].

(** Country code mapping from TLD (Top Level Domain) *)
Definition TLD_TO_COUNTRY : gmap string string := list_to_map TLD_TABLE.

(** One entry of the university directory; a key the entry lacks takes
    the default of [uni.get]: the empty string, the empty list. *)
Record university : Type := {
  alpha_two_code : string;
  country : string;
  name : string;
  domains : list string
}.

(** The lookup dictionaries [load_universities_data] returns. *)
Record university_data : Type := {
  domain_to_country : gmap string string;
  institution_to_country : list (string * string);
  code_to_country_name : gmap string string
}.

Definition words_to_remove : list string :=
  [ "university"; "college"; "institute"; "school"; "of"; "the"; "and";
    "technology"; "science"; "engineering"; "medical"; "state"; "national";
    "international"; "private"; "public"; "community" ].

(** Normalize institution name for better matching. *)
Definition normalize_institution_name (name : string) : string :=
  let normalized := PyStr.lower name in
  let normalized :=
    foldl (fun acc word => PyStr.remove word acc) normalized words_to_remove in
  let normalized := PyStr.drop_punctuation normalized in
  PyStr.strip (PyStr.collapse_spaces normalized).

(** The body of the loop over the directory. *)
Definition load_university (acc : university_data) (uni : university)
    : university_data :=
  let country_code := alpha_two_code uni in
  let country_name := country uni in
  let institution_name := name uni in
  let d2c :=
    foldl (fun m domain => <[PyStr.lower domain := country_code]> m)
      (domain_to_country acc) (domains uni) in
  let i2c :=
    if bool_decide (institution_name = "") then institution_to_country acc
    else
      let normalized_name := normalize_institution_name institution_name in
      if bool_decide (normalized_name = "") then institution_to_country acc
      else Dict.set normalized_name country_code (institution_to_country acc) in
  let c2n :=
    if bool_decide (country_code ≠ "") && bool_decide (country_name ≠ "")
       && bool_decide (code_to_country_name acc !! country_code = None)
    then <[country_code := country_name]> (code_to_country_name acc)
    else code_to_country_name acc in
  {| domain_to_country := d2c;
     institution_to_country := i2c;
     code_to_country_name := c2n |}.

(** Load the world universities data and create lookup dictionaries. *)
Definition load_universities_data (universities : list university)
    : university_data :=
  foldl load_university
    {| domain_to_country := ∅;
       institution_to_country := [];
       code_to_country_name := ∅ |}
    universities.

(** Load TOEFL requirements, keyed by lowercase country name. A row is
    the pair of its [Country] and [TOEFL requirement] cells, [None]
    for a cell the row lacks. *)
Definition load_toefl_requirements
    (rows : list (option string * option string)) : gmap string string :=
  foldl
    (fun requirements row =>
       let country := PyStr.strip (default "" (fst row)) in
       let requirement := PyStr.strip (default "" (snd row)) in
       if bool_decide (country = "") then requirements
       else <[PyStr.lower country := requirement]> requirements)
    ∅ rows.

(** Truth value of a decoded JSON value. *)
Definition truthy (j : json) : bool :=
  match j with
  | JNull => false
  | JBool b => b
  | JNum q => negb (Qeq_bool q 0)
  | JStr s => negb (bool_decide (s = ""))
  | JArr items => negb (bool_decide (items = []))
  | JObj members => negb (bool_decide (members = []))
  end.

Fixpoint chars (s : string) : list json :=
  match s with
  | EmptyString => []
  | String c s' => JStr (String c EmptyString) :: chars s'
  end.

(** What [for entry in education_data] iterates over: the items of an
    array, the keys of an object, the characters of a string; anything
    else is not iterable. *)
Definition iterate (education_data : json) : outcome (list json) :=
  match education_data with
  | JArr items => Returned items
  | JObj members => Returned (JStr <$> members.*1)
  | JStr s => Returned (chars s)
  | JNull | JBool _ | JNum _ => Raised TypeError
  end.

(** [entry.get('institution', '')]: only a dictionary has [get]. *)
Definition get_institution (entry : json) : outcome json :=
  match entry with
  | JObj members => Returned (default (JStr "") (Dict.get "institution" members))
  | _ => Raised AttributeError
  end.

Definition collect_institution (institutions : list json) (entry : json)
    : outcome (list json) :=
  institution ← get_institution entry;
  if truthy institution then Returned (institutions ++ [institution])
  else Returned institutions.

Section WithJson.

(** [json.loads]; [None] stands for [json.JSONDecodeError], which is
    a [ValueError]. *)
Variable json_loads : string -> option json.

Definition loads (text : string) : outcome json :=
  match json_loads text with
  | Some j => Returned j
  | None => Raised ValueError
  end.

(** Extract institution names from education background JSON string. *)
Definition extract_institutions_from_education (education_background : pyvalue)
    : outcome (list json) :=
  match education_background with
  | VNone => Returned []
  | VNan => Returned []
  | VStr text | VOther text =>
      if bool_decide (text = "") || bool_decide (PyStr.strip text = "")
      then Returned []
      else
        try_except
          (education_data ← loads text;
           entries ← iterate education_data;
           for_each collect_institution entries [])
          [ValueError; TypeError]
          []
  end.

End WithJson.

(** Filter out common email domains and return only institutional domains. *)
Definition filter_email_domains (domains_str : string) : list string :=
  if bool_decide (domains_str = "") || bool_decide (PyStr.strip domains_str = "")
  then []
  else
    let domains := PyStr.strip <$> PyStr.split ";" domains_str in
    foldl
      (fun filtered_domains domain =>
         if negb (bool_decide (domain = ""))
            && negb (bool_decide (PyStr.lower domain ∈ COMMON_EMAIL_DOMAINS))
         then filtered_domains ++ [PyStr.lower domain]
         else filtered_domains)
      [] domains.

(** Infer country code from domain TLD. *)
Definition infer_country_from_tld (domain : string) : option string :=
  let parts := PyStr.split "." domain in
  if (2 <=? length parts)%nat
  then TLD_TO_COUNTRY !! ("." +:+ PyStr.last_part parts)
  else None.

(** The condition under which the fuzzy scan takes a table key. *)
Definition fuzzy_accepts (normalized_name uni_name : string) : bool :=
  PyStr.contains normalized_name uni_name
    && (4 <=? String.length normalized_name)%nat
  || PyStr.contains uni_name normalized_name
    && (4 <=? String.length uni_name)%nat.

(** The inner loop over [institution_to_country.items()], left at the
    first accepted key. *)
Fixpoint fuzzy_scan (normalized_name : string) (items : list (string * string))
    : option string :=
  match items with
  | [] => None
  | (uni_name, country_code) :: rest =>
      if bool_decide (uni_name = "") || (String.length uni_name <? 3)%nat
      then fuzzy_scan normalized_name rest
      else if fuzzy_accepts normalized_name uni_name then Some country_code
      else fuzzy_scan normalized_name rest
  end.

(** What one institution contributes: the body of the first loop. *)
Definition institution_code (ud : university_data) (institution : string)
    : option string :=
  let normalized_name := normalize_institution_name institution in
  if bool_decide (normalized_name = "") then None
  else
    match Dict.get normalized_name (institution_to_country ud) with
    | Some country_code => Some country_code
    | None =>
        if (3 <=? String.length normalized_name)%nat
        then fuzzy_scan normalized_name (institution_to_country ud)
        else None
    end.

Definition add_code (country_codes : gset string) (code : option string)
    : gset string :=
  match code with
  | Some c => {[c]} ∪ country_codes
  | None => country_codes
  end.

(** What one e-mail domain contributes: the body of the second loop. The
    inferred code is added when it is truthy, that is, not empty. *)
Definition domain_code (ud : university_data) (domain : string)
    : option string :=
  match domain_to_country ud !! domain with
  | Some country_code => Some country_code
  | None =>
      match infer_country_from_tld domain with
      | Some tld_country =>
          if bool_decide (tld_country = "") then None else Some tld_country
      | None => None
      end
  end.

(** Find country codes for given institutions and email domains. *)
Definition find_country_codes (ud : university_data)
    (institutions email_domains : list string) : gset string :=
  let country_codes :=
    foldl (fun codes institution => add_code codes (institution_code ud institution))
      ∅ institutions in
  foldl (fun codes domain => add_code codes (domain_code ud domain))
    country_codes email_domains.

End CountryMatching.

(** ** add_english_labels.py *)

(** A Python float: NaN, an infinity, or a finite value, which is a
    rational. *)
Inductive pyfloat : Type :=
| FNan
| FInf (negative : bool)
| FFinite (q : Q).

(** A stored [english_speaker] cell as [read_csv] delivers it: missing, a
    number, or text when the column is not numeric. A frame without the
    column behaves as one where every cell is missing. *)
Inductive label_cell : Type :=
| LMissing
| LNum (x : pyfloat)
| LStr (s : string).

(** One row of the author profile table, with the columns the label pass
    reads. [None] is a missing cell (NaN). *)
Record profile : Type := {
  author_name : string;
  all_emails : option string;
  education_background : option string;
  current_country : option string;
  education_countries : option string;
  english_speaker : label_cell
}.

(** A row of the frame the pass returns: the input row and the two
    columns the pass writes. *)
Record labelled : Type := {
  source_row : profile;
  out_countries : option string;
  out_label : Z
}.

(** The returned frame read as the input of a later pass. *)
Definition as_profile (r : labelled) : profile :=
  {| author_name := author_name (source_row r);
     all_emails := all_emails (source_row r);
     education_background := education_background (source_row r);
     current_country := current_country (source_row r);
     education_countries := out_countries r;
     english_speaker := LNum (FFinite (inject_Z (out_label r))) |}.

Module EnglishLabels.

Import CountryMatching.

(** *** The pattern [@([a-zA-Z0-9.-]+\.[a-zA-Z]{2,})] *)

Definition isdomainchar (c : ascii) : bool :=
  PyStr.isalpha c || PyStr.isdigit c
  || bool_decide (c = "."%char) || bool_decide (c = "-"%char).

Fixpoint letters_run (s : string) : nat :=
  match s with
  | EmptyString => O
  | String c s' => if PyStr.isalpha c then S (letters_run s') else O
  end.

(** Length of the match of [[a-zA-Z0-9.-]*\.[a-zA-Z]{2,}] at the start of
    [r], both repetitions greedy: the last dot of the run of domain
    characters that two letters follow, and all the letters after it. *)
Fixpoint tld_end (r : string) : option nat :=
  match r with
  | EmptyString => None
  | String c r' =>
      if negb (isdomainchar c) then None
      else
        match tld_end r' with
        | Some n => Some (S n)
        | None =>
            if bool_decide (c = "."%char) && (2 <=? letters_run r')%nat
            then Some (S (letters_run r'))
            else None
        end
  end.

(** Length of the group matched right after an [@]. *)
Definition domain_match (r : string) : option nat :=
  match r with
  | EmptyString => None
  | String c r' => if isdomainchar c then S <$> tld_end r' else None
  end.

(** [re.findall(email_pattern, s)]; [skip] counts the characters of the
    last match still to be passed over. *)
Fixpoint findall_from (skip : nat) (s : string) : list string :=
  match s with
  | EmptyString => []
  | String c s' =>
      match skip with
      | S k => findall_from k s'
      | O =>
          if bool_decide (c = "@"%char)
          then match domain_match s' with
               | Some n => String.substring 0 n s' :: findall_from n s'
               | None => findall_from 0 s'
               end
          else findall_from 0 s'
      end
  end.

(** [list(dict.fromkeys(xs))] *)
Definition unique (xs : list string) : list string :=
  foldl (fun seen x => if bool_decide (x ∈ seen) then seen else seen ++ [x]) [] xs.

(** Extract domains from email string. *)
Definition extract_email_domains (email_string : option string) : string :=
  match email_string with
  | None => ""
  | Some text =>
      if bool_decide (text = "") then ""
      else PyStr.join "; " (unique (findall_from 0 text))
  end.

(** *** Cleaning a stored label *)

(** [int(x)]: truncation toward zero; an infinity cannot be converted. *)
Definition int_of_float (x : pyfloat) : outcome Z :=
  match x with
  | FFinite q => Returned (Z.quot (Qnum q) (Zpos (Qden q)))
  | FInf _ => Raised OverflowError
  | FNan => Raised ValueError
  end.

Definition isna (val : label_cell) : bool :=
  match val with
  | LMissing | LNum FNan => true
  | _ => false
  end.

Definition is_label (z : Z) : bool := bool_decide (z ∈ [0; 1; -1]).

Section WithFloat.

(** [float(s)] on text; [None] stands for [ValueError]. *)
Variable float_of_str : string -> option pyfloat.

Definition to_float (val : label_cell) : outcome pyfloat :=
  match val with
  | LMissing => Raised TypeError
  | LNum x => Returned x
  | LStr s =>
      match float_of_str s with
      | Some x => Returned x
      | None => Raised ValueError
      end
  end.

(** Clean and validate English speaker label. *)
Definition clean_label (val : label_cell) : outcome (option Z) :=
  if isna val then Returned None
  else
    try_except
      (num_val ← to_float val;
       match num_val with
       | FNan => Returned None
       | _ =>
           int_val ← int_of_float num_val;
           if is_label int_val then Returned (Some int_val)
           else Returned None
       end)
      [ValueError; TypeError]
      None.

End WithFloat.

(** *** The label pass *)

(** [sep.join(xs)] where the items come out of JSON: every item must be
    a string. *)
Fixpoint strings_of (xs : list json) : outcome (list string) :=
  match xs with
  | [] => Returned []
  | JStr s :: xs' => rest ← strings_of xs'; Returned (s :: rest)
  | _ :: _ => Raised TypeError
  end.

(** A row together with the helper columns computed before the loop. *)
Record prepared : Type := {
  row : profile;
  filtered_email_domains : string;
  institutions_from_education : string;
  cleaned_label : option Z
}.

(** What the loop appends for one row. [resolved] is not a value of the
    program: it records whether the row reached the call of
    [find_country_codes]. *)
Record decision : Type := {
  countries : option string;
  label : Z;
  resolved : bool
}.

(** [sorted(country_codes)] *)
Definition sorted (country_codes : gset string) : list string :=
  merge_sort String.le (elements country_codes).

(** The stored country text counts as data when, trimmed, it is not
    empty, not a printed missing value, and not a printed dictionary. *)
Definition has_country_data (existing_countries : option string) : bool :=
  match existing_countries with
  | None => false
  | Some raw =>
      let countries_str := PyStr.strip raw in
      negb (bool_decide (countries_str = ""))
      && negb (bool_decide (countries_str ∈ ["nan"; "None"; ""]))
      && negb (PyStr.startswith "{" countries_str)
  end.

(** The second cleaning of the stored label, inside the loop. *)
Definition existing_label_of (cleaned : option Z) : Z :=
  match cleaned with
  | Some l => if is_label l then l else -1
  | None => -1
  end.

(** [[x.strip() for x in s.split(';')] if s else []] *)
Definition split_column (s : string) : list string :=
  if bool_decide (s = "") then [] else PyStr.strip <$> PyStr.split ";" s.

(** The trimmed self-reported country, when it is usable. *)
Definition valid_current_country (current_country_raw : option string)
    : option string :=
  match current_country_raw with
  | None => None
  | Some raw =>
      let current_country_str := PyStr.strip raw in
      if negb (bool_decide (current_country_str = ""))
         && negb (bool_decide (PyStr.lower current_country_str ∈ ["nan"; "none"; ""]))
      then Some current_country_str
      else None
  end.

(** Use current_country as fallback: it is added to an empty set, and
    to a set that lacks it. *)
Definition merge_current_country (country_codes : gset string)
    (current_country : option string) : gset string :=
  match current_country with
  | Some c =>
      if bool_decide (country_codes = ∅) then {[c]} ∪ country_codes
      else if negb (bool_decide (c ∈ country_codes)) then {[c]} ∪ country_codes
      else country_codes
  | None => country_codes
  end.

(** The loop of step 3 over the e-mail domains. *)
Definition tld_pass (country_codes : gset string) (email_domains : list string)
    : gset string :=
  foldl
    (fun codes domain =>
       match infer_country_from_tld domain with
       | Some tld_country =>
           if bool_decide (tld_country = "") then codes else {[tld_country]} ∪ codes
       | None => codes
       end)
    country_codes email_domains.

Section Engine.

Variable json_loads : string -> option json.
Variable float_of_str : string -> option pyfloat.
Variable ud : university_data.
Variable toefl_requirements : gmap string string.

(** The test of the flag loop for one code. *)
Definition exempt (code : string) : bool :=
  let country_name := default "" (code_to_country_name ud !! code) in
  negb (bool_decide (country_name = ""))
  && bool_decide
       (default "" (toefl_requirements !! PyStr.lower country_name) = "Exempt").

(** [english_flag = 0], then the loop over the codes, left at the
    first exempt one. *)
Fixpoint english_flag_of (codes : list string) : Z :=
  match codes with
  | [] => 0
  | code :: rest => if exempt code then 1 else english_flag_of rest
  end.

(** The country set of a row without a preserved label; [step3] tells
    whether the pass over the top-level domains is carried out. *)
Definition resolve_countries (step3 : bool) (r : prepared) : gset string :=
  let institutions := split_column (institutions_from_education r) in
  let email_domains := split_column (filtered_email_domains r) in
  let country_codes := find_country_codes ud institutions email_domains in
  if step3 && bool_decide (country_codes = ∅)
     && negb (bool_decide (email_domains = []))
  then tld_pass country_codes email_domains
  else country_codes.

(** The part of the loop body below the preserved-label branch. *)
Definition label_fresh (step3 : bool) (r : prepared) : decision :=
  let country_codes := resolve_countries step3 r in
  let current_country := valid_current_country (current_country (row r)) in
  let has_valid_current_country := bool_decide (is_Some current_country) in
  let countries_from_processing := bool_decide (country_codes ≠ ∅) in
  let country_codes := merge_current_country country_codes current_country in
  if negb countries_from_processing && negb has_valid_current_country
  then {| countries := None; label := -1; resolved := true |}
  else
    {| countries :=
         if bool_decide (country_codes = ∅) then None
         else Some (PyStr.join "; " (sorted country_codes));
       label :=
         if bool_decide (country_codes = ∅) then -1
         else english_flag_of (elements country_codes);
       resolved := true |}.

(** The country set [label_fresh] ends with. *)
Definition country_set (step3 : bool) (r : prepared) : gset string :=
  merge_current_country (resolve_countries step3 r)
    (valid_current_country (current_country (row r))).

(** The preserved-label branch. *)
Definition label_preserved (r : prepared) : decision :=
  let existing_countries := education_countries (row r) in
  let has_data := has_country_data existing_countries in
  let existing_label := existing_label_of (cleaned_label r) in
  let existing_label := if has_data then existing_label else -1 in
  {| countries := if has_data then existing_countries else None;
     label := existing_label;
     resolved := false |}.

(** One turn of the loop over the rows. *)
Definition label_row (step3 : bool) (authors_with_labels : gset string)
    (r : prepared) : decision :=
  if bool_decide (author_name (row r) ∈ authors_with_labels)
  then label_preserved r
  else label_fresh step3 r.

(** The helper columns of one row. *)
Definition prepare (p : profile) : outcome prepared :=
  let all_emails_domains := extract_email_domains (all_emails p) in
  let filtered :=
    if bool_decide (all_emails_domains = "") then ""
    else PyStr.join "; " (filter_email_domains all_emails_domains) in
  institutions ←
    match education_background p with
    | None => Returned ""
    | Some x =>
        if bool_decide (x = "") then Returned ""
        else
          found ← extract_institutions_from_education json_loads (VStr x);
          names ← strings_of found;
          Returned (PyStr.join "; " names)
    end;
  Returned {| row := p;
              filtered_email_domains := filtered;
              institutions_from_education := institutions;
              cleaned_label := None |}.

(** [df['english_speaker'].apply(clean_label)] for one row. *)
Definition clean (r : prepared) : outcome prepared :=
  cleaned ← clean_label float_of_str (english_speaker (row r));
  Returned {| row := row r;
              filtered_email_domains := filtered_email_domains r;
              institutions_from_education := institutions_from_education r;
              cleaned_label := cleaned |}.

(** The rows of [valid_mask]. *)
Definition has_valid_label (r : prepared) : bool :=
  match cleaned_label r with
  | Some l => bool_decide (l ∈ [0; 1])
  | None => false
  end.

Definition authors_with_labels_of (rows : list prepared) : gset string :=
  list_to_set (author_name ∘ row <$> filter (fun r => has_valid_label r) rows).

(** [no_country_mask] of the final validation: the cell is missing,
    or empty, or blank once trimmed. *)
Definition no_country_mask (r : labelled) : bool :=
  match out_countries r with
  | None => true
  | Some c => bool_decide (c = "") || bool_decide (PyStr.strip c = "")
  end.

(** Final validation: when some row without country data carries a
    label other than -1, every row without country data is reset. *)
Definition final_validation (rows : list labelled) : list labelled :=
  let invalid_labels :=
    length (filter (fun r => no_country_mask r && negb (bool_decide (out_label r = -1))) rows) in
  if (0 <? invalid_labels)%nat
  then
    (fun r =>
       if no_country_mask r
       then {| source_row := source_row r; out_countries := None; out_label := -1 |}
       else r) <$> rows
  else rows.

Fixpoint apply_each {A B : Type} (f : A -> outcome B) (xs : list A)
    : outcome (list B) :=
  match xs with
  | [] => Returned []
  | x :: xs' => y ← f x; ys ← apply_each f xs'; Returned (y :: ys)
  end.

Definition write_columns (r : prepared) (d : decision) : labelled :=
  {| source_row := row r; out_countries := countries d; out_label := label d |}.

(** The helper columns and the cleaned labels of the whole frame. *)
Definition prepare_all (df : list profile) : outcome (list prepared) :=
  rows ← apply_each prepare df;
  apply_each clean rows.

(** What the loop over the rows appends, row by row. *)
Definition decisions (step3 : bool) (df : list profile)
    : outcome (list decision) :=
  rows ← prepare_all df;
  Returned (label_row step3 (authors_with_labels_of rows) <$> rows).

(** Process author profiles and add English speaker labels; [step3]
    is [true] for the program as it is written. *)
Definition process_with (step3 : bool) (df : list profile)
    : outcome (list labelled) :=
  rows ← prepare_all df;
  let authors_with_labels := authors_with_labels_of rows in
  let out :=
    (fun r => write_columns r (label_row step3 authors_with_labels r)) <$> rows in
  Returned (final_validation out).

Definition process_author_profiles (df : list profile) : outcome (list labelled) :=
  process_with true df.

End Engine.

End EnglishLabels.

(** ** Sample data

    A three-entry directory, a TOEFL table and stand-ins for the two
    library parsers, used by the examples below. The third entry of the
    directory has no [alpha_two_code]. *)

Module Sample.

Import CountryMatching EnglishLabels.

Definition directory : list university :=
  [ {| alpha_two_code := "US"; country := "United States";
       name := "Massachusetts Institute of Technology";
       domains := ["mit.edu"] |};
    {| alpha_two_code := "CN"; country := "China";
       name := "Tsinghua University";
       domains := ["tsinghua.edu.cn"] |};
    {| alpha_two_code := ""; country := "Nowhere";
       name := "Lost College";
       domains := ["lost.example"] |} ].

Definition ud : university_data := load_universities_data directory.

Definition toefl_rows : list (option string * option string) :=
  [ (Some "United States", Some "Exempt");
    (Some " China ", Some "Required");
    (None, Some "Exempt") ].

Definition toefl : gmap string string := load_toefl_requirements toefl_rows.

(** [json.loads] on the documents of a table; any other text is not
    JSON. *)
Definition json_of_table (table : list (string * json)) (text : string)
    : option json :=
  Dict.get text table.

(** [float] on the texts of a table; any other text is not a number. *)
Definition float_of_table (table : list (string * pyfloat)) (text : string)
    : option pyfloat :=
  Dict.get text table.

Definition documents : list (string * json) :=
  [ ("[]", JArr []);
    ("[1]", JArr [JNum 1]);
    ("7", JNum 7);
    ("mit.json",
     JArr [JObj [("institution", JStr "Massachusetts Institute of Technology");
                 ("year", JNum 2020)];
           JObj [("position", JStr "PhD")];
           JObj [("institution", JStr "")]]) ].

Definition json_loads : string -> option json := json_of_table documents.

Definition numbers : list (string * pyfloat) :=
  [ ("1", FFinite 1); ("0.0", FFinite 0); ("nan", FNan); ("inf", FInf false) ].

Definition float_of_str : string -> option pyfloat := float_of_table numbers.

Definition author (author_name : string) (emails education country : option string)
    (stored_countries : option string) (stored_label : label_cell) : profile :=
  {| author_name := author_name;
     all_emails := emails;
     education_background := education;
     current_country := country;
     education_countries := stored_countries;
     english_speaker := stored_label |}.

Definition run : list profile -> outcome (list labelled) :=
  process_author_profiles json_loads float_of_str ud toefl.

(** An author educated at MIT who writes from a Tsinghua address. *)
Definition ada : profile :=
  author "Ada" (Some "ada@student.tsinghua.edu.cn") (Some "mit.json") None
    None LMissing.

(** A stored label 1 beside a country cell that holds one blank. *)
Definition bo : profile :=
  author "Bo" None None None (Some " ") (LNum (FFinite 1)).

(** No signal but a self-reported country written in braces. *)
Definition cy : profile :=
  author "Cy" None None (Some "{x}") None LMissing.

(** A stored label 1 backed by stored country text. *)
Definition dee : profile :=
  author "Dee" None None None (Some "US") (LNum (FFinite 1)).

(** No signal at all. *)
Definition eve : profile :=
  author "Eve" None None None None LMissing.

(** The frame the pass returns for [ada] and [eve]. *)
Definition first_frame : list labelled :=
  [ {| source_row := ada; out_countries := Some "CN; US"; out_label := 1 |};
    {| source_row := eve; out_countries := None; out_label := -1 |} ].

Definition ada_prepared : prepared :=
  {| row := ada;
     filtered_email_domains := "student.tsinghua.edu.cn";
     institutions_from_education := "Massachusetts Institute of Technology";
     cleaned_label := None |}.

End Sample.

(** ** Vocabulary of the statements *)

(** Every character is white space. *)
Fixpoint allspace (s : string) : bool :=
  match s with
  | EmptyString => true
  | String c s' => PyStr.isspace c && allspace s'
  end.

(** What the loop of [filter_email_domains] keeps: a piece that is not
    empty and whose lowercase form is no generic provider. *)
Definition retained (domain : string) : Prop :=
  domain ≠ "" ∧ PyStr.lower domain ∉ CountryMatching.COMMON_EMAIL_DOMAINS.

Global Instance retained_dec domain : Decision (retained domain).
Proof. unfold retained. apply _. Defined.

(** [a] occurs in [b] as a run of consecutive characters. *)
Definition substring_of (a b : string) : Prop :=
  ∃ before after, b = before +:+ a +:+ after.

(** One of the two names contains the other, and the contained one has at
    least four characters. *)
Definition accepted (normalized_name uni_name : string) : Prop :=
  (substring_of normalized_name uni_name ∧ 4 ≤ String.length normalized_name)%nat
  ∨ (substring_of uni_name normalized_name ∧ 4 ≤ String.length uni_name)%nat.

(** A table entry the fuzzy scan passes over: its key is shorter than
    three characters, or the pair is not accepted. *)
Definition passed_over (normalized_name : string) (item : string * string) : Prop :=
  (String.length item.1 < 3)%nat ∨ ¬ accepted normalized_name item.1.

(** A row of the returned frame with its two written columns reset. *)
Definition reset (r : labelled) : labelled :=
  {| source_row := source_row r; out_countries := None; out_label := -1 |}.

(** What the final validation does to one row when it acts. *)
Definition repair (r : labelled) : labelled :=
  if EnglishLabels.no_country_mask r then reset r else r.

(** The stored country text backs a label: trimmed of surrounding white
    space it is not empty, not [nan], not [None], and does not start
    with a brace. *)
Definition backing_data (stored : option string) : Prop :=
  ∃ raw, stored = Some raw
    ∧ PyStr.strip raw ≠ ""
    ∧ PyStr.strip raw ≠ "nan"
    ∧ PyStr.strip raw ≠ "None"
    ∧ PyStr.startswith "{" (PyStr.strip raw) = false.

(** The row of the prepared frame that belongs to a row of the input. *)
Definition prepared_from (json_loads : string -> option json)
    (float_of_str : string -> option pyfloat) (p : profile)
    (r : EnglishLabels.prepared) : Prop :=
  ∃ r0, EnglishLabels.prepare json_loads p = Returned r0
        ∧ EnglishLabels.clean float_of_str r0 = Returned r.

(** A row the loop can append: with the label -1, the country cell is
    missing or holds text that is not blank. *)
Definition settled (r : labelled) : Prop :=
  out_label r = -1 → EnglishLabels.no_country_mask r = true → out_countries r = None.

(** One row of the returned frame: the prepared row, labelled by the loop
    and repaired by the final validation. *)
Definition row_out (ud : CountryMatching.university_data)
    (toefl : gmap string string) (step3 : bool) (awl : gset string)
    (r : EnglishLabels.prepared) : labelled :=
  repair (EnglishLabels.write_columns r (EnglishLabels.label_row ud toefl step3 awl r)).

(** The prepared row of a second pass: the helper columns are those of
    the first pass, the stored cells are what the first pass wrote. *)
Definition second_row (o : labelled) (q : EnglishLabels.prepared)
    : EnglishLabels.prepared :=
  {| EnglishLabels.row := as_profile o;
     EnglishLabels.filtered_email_domains := EnglishLabels.filtered_email_domains q;
     EnglishLabels.institutions_from_education :=
       EnglishLabels.institutions_from_education q;
     EnglishLabels.cleaned_label :=
       if EnglishLabels.is_label (out_label o) then Some (out_label o) else None |}.

(** The prepared row a second pass has for a row of the first. *)
Definition rerun_row (ud : CountryMatching.university_data)
    (toefl : gmap string string) (step3 : bool) (awl : gset string)
    (q : EnglishLabels.prepared) : EnglishLabels.prepared :=
  second_row (row_out ud toefl step3 awl q) q.


(** ** merge_papers_with_language.py *)

Module MergePapers.

(** Extract first author name from authors string. The cell is [None]
    when it is missing. *)
Definition extract_first_author (authors_str : option string) : string :=
  match authors_str with
  | None => ""
  | Some text =>
      if bool_decide (text = "") then ""
      else
        let authors_str := PyStr.strip text in
        if bool_decide (authors_str = "") then ""
        else
          match PyStr.split "," authors_str with
          | first :: _ => PyStr.strip first
          | [] => ""
          end
  end.

(** The lookup dictionary [author_name -> english_speaker], filled row by
    row from the frame the label pass wrote; a row with an empty name is
    passed over. *)
Definition author_language_map (profiles : list labelled) : gmap string Z :=
  foldl
    (fun m r =>
       let author_name := author_name (source_row r) in
       if bool_decide (author_name = "") then m
       else <[author_name := out_label r]> m)
    ∅ profiles.

(** [author_language_map.get(x, -1) if x else -1] *)
Definition paper_label (m : gmap string Z) (first_author : string) : Z :=
  if bool_decide (first_author = "") then -1
  else default (-1) (m !! first_author).

(** The [first_author] and [english_speaker] columns of a frame of papers
    that has an [authors] column. *)
Definition label_papers (profiles : list labelled)
    (authors : list (option string)) : list (string * Z) :=
  let m := author_language_map profiles in
  (fun cell =>
     let first_author := extract_first_author cell in
     (first_author, paper_label m first_author)) <$> authors.

End MergePapers.

(** * Properties *)

(** ** Strings *)

Section StringFacts.

Import PyStr.

Lemma lower_char_idem c : lower_char (lower_char c) = lower_char c.
Proof. destruct c as [[] [] [] [] [] [] [] []]; reflexivity. Qed.

Lemma lower_idem s : lower (lower s) = lower s.
Proof.
  induction s as [|c s IH]; simpl; [reflexivity|].
  by rewrite lower_char_idem, IH.
Qed.

Lemma lower_empty s : lower s = "" ↔ s = "".
Proof. destruct s; simpl; split; congruence. Qed.

Lemma rstrip_empty s : rstrip s = "" ↔ allspace s = true.
Proof.
  induction s as [|c s IH]; simpl; [done|].
  destruct (rstrip s) eqn:Hr.
  - destruct (isspace c); simpl; [|split; congruence].
    by rewrite <- IH.
  - rewrite andb_true_iff, <- IH. split; [congruence|]. intros [_ ?]. congruence.
Qed.

Lemma lstrip_cases s :
  (allspace s = true ∧ lstrip s = "")
  ∨ (allspace s = false ∧ ∃ c t, lstrip s = String c t ∧ isspace c = false).
Proof.
  induction s as [|c s IH]; simpl; [by left|].
  destruct (isspace c) eqn:Hc; simpl; [exact IH|].
  right. split; [done|]. by exists c, s.
Qed.

Lemma strip_empty s : strip s = "" ↔ allspace s = true.
Proof.
  unfold strip. destruct (lstrip_cases s) as [[Ha ->]|[Ha (c & t & -> & Hc)]].
  - by rewrite Ha.
  - rewrite Ha, rstrip_empty. simpl. by rewrite Hc.
Qed.

Lemma strip_nonempty_raw s : strip s ≠ "" → s ≠ "".
Proof. intros H ->. by apply H. Qed.

Lemma contains_char_cons sep c s :
  contains (String sep "") (String c s)
    = bool_decide (sep = c) || contains (String sep "") s.
Proof.
  simpl. destruct (ascii_dec sep c) as [->|Hne].
  - rewrite bool_decide_eq_true_2 by done. by destruct s.
  - by rewrite bool_decide_eq_false_2 by done.
Qed.

(** A string without the separator is one piece. *)
Lemma split_absent sep s : contains (String sep "") s = false → split sep s = [s].
Proof.
  induction s as [|c s IH]; [done|].
  rewrite contains_char_cons. intros [Hc Hs]%orb_false_iff.
  apply bool_decide_eq_false in Hc. simpl.
  rewrite bool_decide_eq_false_2 by congruence. by rewrite (IH Hs).
Qed.

Lemma allspace_no_semicolon s : allspace s = true → contains ";" s = false.
Proof.
  induction s as [|c s IH]; [done|].
  rewrite contains_char_cons. simpl. intros [Hc Hs]%andb_true_iff.
  rewrite (IH Hs), orb_false_r. apply bool_decide_eq_false. by intros <-.
Qed.

End StringFacts.

(** ** The signal extractor *)

Section FilterEmailDomains.

Import CountryMatching.

Lemma filter_loop (acc domains : list string) :
  foldl
    (fun filtered_domains domain =>
       if negb (bool_decide (domain = ""))
          && negb (bool_decide (PyStr.lower domain ∈ COMMON_EMAIL_DOMAINS))
       then filtered_domains ++ [PyStr.lower domain]
       else filtered_domains)
    acc domains
  = acc ++ (PyStr.lower <$> filter retained domains).
Proof.
  revert acc. induction domains as [|d ds IH]; intros acc; simpl.
  - by rewrite app_nil_r.
  - rewrite IH, filter_cons. destruct (decide (retained d)) as [[H1 H2]|Hn].
    + rewrite !bool_decide_eq_false_2 by done. simpl. by rewrite <- app_assoc.
    + case_bool_decide; simpl; [done|]. case_bool_decide; simpl; [done|].
      destruct Hn. by split.
Qed.

(** C9. The output of [filter_email_domains] is the sequence of the
    trimmed pieces of the input, in their order, without the empty
    pieces and without the pieces whose lowercase form is a generic
    consumer-mail provider, each remaining piece turned to lowercase.
    Hence every output domain is lowercase, whatever the case of the
    input, and none is a generic provider. *)
Theorem filter_email_domains_lowercased (domains_str : string) :
  filter_email_domains domains_str
    = PyStr.lower <$> filter retained (PyStr.strip <$> PyStr.split ";" domains_str)
  ∧ Forall (fun d => PyStr.lower d = d ∧ d ∉ COMMON_EMAIL_DOMAINS)
      (filter_email_domains domains_str).
Proof.
  assert (Heq : filter_email_domains domains_str
    = PyStr.lower <$> filter retained (PyStr.strip <$> PyStr.split ";" domains_str)).
  { unfold filter_email_domains.
    destruct (bool_decide (domains_str = "") || bool_decide (PyStr.strip domains_str = ""))
      eqn:Hblank.
    - assert (Hs : PyStr.strip domains_str = "").
      { apply orb_true_iff in Hblank as [H|H]; apply bool_decide_eq_true in H; [by subst|done]. }
      pose proof Hs as Ha. apply strip_empty in Ha.
      rewrite (split_absent _ _ (allspace_no_semicolon _ Ha)). simpl.
      rewrite filter_cons, Hs. destruct (decide (retained "")) as [[? _]|_]; done.
    - by rewrite filter_loop. }
  split; [exact Heq|]. rewrite Heq.
  apply Forall_fmap, Forall_forall. intros d [Hd _]%list_elem_of_filter. simpl.
  split; [apply lower_idem|exact (proj2 Hd)].
Qed.

End FilterEmailDomains.

(** ** The country resolver: e-mail domains *)

Section Domains.

Import CountryMatching EnglishLabels.

Lemma infer_dotless domain :
  PyStr.contains "." domain = false → infer_country_from_tld domain = None.
Proof.
  intros H. unfold infer_country_from_tld. by rewrite (split_absent _ _ H).
Qed.

(** C10. A domain without a dot has a single dot-split part, so
    [infer_country_from_tld] returns [None] for it; what such a domain
    contributes in [find_country_codes] is exactly its entry in the
    domain table, if it has one, and the top-level-domain pass of the
    label engine adds nothing for it. *)
Theorem dotless_domain_exact_only (domain : string) :
  PyStr.contains "." domain = false →
  infer_country_from_tld domain = None
  ∧ (∀ ud, domain_code ud domain = domain_to_country ud !! domain)
  ∧ (∀ codes, tld_pass codes [domain] = codes).
Proof.
  intros H. pose proof (infer_dotless _ H) as Hinfer. split; [done|]. split.
  - intros ud. unfold domain_code. rewrite Hinfer. by destruct (_ !! _).
  - intros codes. unfold tld_pass. simpl. by rewrite Hinfer.
Qed.

Lemma dotless_domain_exact_only_witness :
  PyStr.contains "." "localhost" = false
  ∧ infer_country_from_tld "localhost" = None.
Proof.
  split; [reflexivity|].
  exact (proj1 (dotless_domain_exact_only "localhost" eq_refl)).
Defined.

Lemma add_code_empty codes code :
  add_code codes code = ∅ → codes = ∅ ∧ code = None.
Proof.
  destruct code as [c|]; simpl; [|done].
  intros H. exfalso. assert (c ∈ ({[c]} ∪ codes : gset string)) by set_solver.
  rewrite H in *. set_solver.
Qed.

(** A loop that only adds codes ends with the empty set only if it
    began with it and no turn found a code. *)
Lemma add_loop_empty {A : Type} (f : A → option string) (xs : list A) codes :
  foldl (fun codes x => add_code codes (f x)) codes xs = ∅ →
  codes = ∅ ∧ Forall (fun x => f x = None) xs.
Proof.
  revert codes. induction xs as [|x xs IH]; intros codes; simpl; [done|].
  intros H. destruct (IH _ H) as [[-> Hx]%add_code_empty Hxs].
  split; [done|]. by constructor.
Qed.

Lemma find_country_codes_empty ud institutions email_domains :
  find_country_codes ud institutions email_domains = ∅ →
  Forall (fun institution => institution_code ud institution = None) institutions
  ∧ Forall (fun domain => domain_code ud domain = None) email_domains.
Proof.
  unfold find_country_codes. intros H.
  apply add_loop_empty in H as [H Hd]. apply add_loop_empty in H as [_ Hi]. done.
Qed.

Lemma tld_pass_nothing ud codes email_domains :
  Forall (fun domain => domain_code ud domain = None) email_domains →
  tld_pass codes email_domains = codes.
Proof.
  unfold tld_pass. revert codes.
  induction email_domains as [|d ds IH]; intros codes Hall; cbn [foldl]; [done|].
  inversion Hall as [|? ? Hd Hds]; subst.
  unfold domain_code in Hd. destruct (domain_to_country ud !! d); [done|].
  destruct (infer_country_from_tld d) as [t|]; [|by apply IH].
  destruct (bool_decide (t = "")); [by apply IH|done].
Qed.

Lemma resolve_countries_step3 ud r :
  resolve_countries ud true r = resolve_countries ud false r.
Proof.
  unfold resolve_countries. simpl.
  case_bool_decide as Hempty; simpl; [|done].
  destruct (negb _); [|done].
  rewrite Hempty at 2. rewrite Hempty.
  apply find_country_codes_empty in Hempty as [_ Hd].
  by apply (tld_pass_nothing ud).
Qed.

Lemma label_row_step3 ud toefl awl r :
  label_row ud toefl true awl r = label_row ud toefl false awl r.
Proof.
  unfold label_row, label_fresh. by rewrite resolve_countries_step3.
Qed.

(** C8. The pass of step 3 over the top-level domains is redundant:
    whenever [find_country_codes] returns the empty set, the loop that
    applies [infer_country_from_tld] to the same e-mail domains adds no
    code, and the label pass returns the same frame with that loop as
    without it. *)
Theorem tld_pass_redundant json_loads float_of_str ud toefl
    (institutions email_domains : list string) (df : list profile) :
  (find_country_codes ud institutions email_domains = ∅ →
   tld_pass (find_country_codes ud institutions email_domains) email_domains = ∅)
  ∧ process_author_profiles json_loads float_of_str ud toefl df
      = process_with json_loads float_of_str ud toefl false df.
Proof.
  split.
  - intros H. rewrite H. apply find_country_codes_empty in H as [_ Hd].
    by apply (tld_pass_nothing ud).
  - unfold process_author_profiles, process_with.
    destruct (prepare_all _ _ df) as [rows|e]; simpl; [|done].
    do 2 f_equal. apply list_fmap_ext. intros _ r _. by rewrite label_row_step3.
Qed.

Lemma tld_pass_redundant_witness :
  find_country_codes Sample.ud [] ["localhost"; "lab.example.org"] = ∅
  ∧ tld_pass (find_country_codes Sample.ud [] ["localhost"; "lab.example.org"])
      ["localhost"; "lab.example.org"] = ∅.
Proof.
  assert (H : find_country_codes Sample.ud [] ["localhost"; "lab.example.org"] = ∅)
    by (vm_compute; reflexivity).
  split; [exact H|].
  exact (proj1 (tld_pass_redundant Sample.json_loads Sample.float_of_str
                  Sample.ud Sample.toefl [] ["localhost"; "lab.example.org"] []) H).
Defined.

End Domains.

(** ** The country resolver: institutions *)

Section Institutions.

Import CountryMatching.

Lemma append_cons c a b : String c a +:+ b = String c (a +:+ b).
Proof. reflexivity. Qed.

Lemma append_empty b : "" +:+ b = b.
Proof. reflexivity. Qed.

Lemma prefix_spec a b : String.prefix a b = true ↔ ∃ after, b = a +:+ after.
Proof.
  revert b. induction a as [|c a IH]; intros [|d b]; simpl.
  - split; eauto.
  - split; eauto.
  - split; [done|by intros [? ?]].
  - destruct (ascii_dec c d) as [->|Hne].
    + rewrite IH. split; intros [after H]; exists after;
        rewrite append_cons in *; congruence.
    + split; [done|]. intros [after H]. rewrite append_cons in H. congruence.
Qed.

Lemma contains_spec a b : PyStr.contains a b = true ↔ substring_of a b.
Proof.
  unfold substring_of. induction b as [|d b IH].
  - destruct a as [|c a]; simpl; split; try done.
    + intros _. by exists "", "".
    + intros ([|? ?] & after & H); by rewrite ?append_empty, append_cons in H.
  - cbn [PyStr.contains]. rewrite orb_true_iff, IH, prefix_spec. split.
    + intros [[after H]|(before & after & H)].
      * by exists "", after.
      * exists (String d before), after. by rewrite append_cons, H.
    + intros ([|e before] & after & H).
      * left. by exists after.
      * right. exists before, after. rewrite append_cons in H. congruence.
Qed.

Lemma fuzzy_accepts_spec n k : fuzzy_accepts n k = true ↔ accepted n k.
Proof.
  unfold fuzzy_accepts, accepted.
  by rewrite orb_true_iff, !andb_true_iff, !contains_spec, !Nat.leb_le.
Qed.

Lemma fuzzy_skip_spec k :
  bool_decide (k = "") || (String.length k <? 3)%nat = true ↔ (String.length k < 3)%nat.
Proof.
  rewrite orb_true_iff, bool_decide_eq_true, Nat.ltb_lt. split; [|by right].
  intros [->|?]; simpl; lia.
Qed.

Lemma fuzzy_scan_passes n item rest :
  passed_over n item → fuzzy_scan n (item :: rest) = fuzzy_scan n rest.
Proof.
  destruct item as [k c]. intros [Hshort|Hrej]; simpl in *.
  - apply fuzzy_skip_spec in Hshort. by rewrite Hshort.
  - destruct (bool_decide (k = "") || (String.length k <? 3)%nat); [done|].
    destruct (fuzzy_accepts n k) eqn:Hacc; [|done].
    by apply fuzzy_accepts_spec in Hacc.
Qed.

Lemma fuzzy_scan_takes n k c rest :
  (3 ≤ String.length k)%nat → accepted n k → fuzzy_scan n ((k, c) :: rest) = Some c.
Proof.
  intros Hlen Hacc. simpl.
  destruct (bool_decide (k = "") || (String.length k <? 3)%nat) eqn:Hskip.
  - apply fuzzy_skip_spec in Hskip. lia.
  - apply fuzzy_accepts_spec in Hacc. by rewrite Hacc.
Qed.

Lemma fuzzy_scan_cases n k c :
  ((3 ≤ String.length k)%nat ∧ accepted n k) ∨ passed_over n (k, c).
Proof.
  unfold passed_over. simpl.
  destruct (decide (String.length k < 3)%nat); [right; by left|].
  destruct (fuzzy_accepts n k) eqn:Hacc.
  - left. split; [lia|by apply fuzzy_accepts_spec].
  - right. right. rewrite <- fuzzy_accepts_spec. congruence.
Qed.

Lemma passed_over_not_taken n k c :
  passed_over n (k, c) → (3 ≤ String.length k)%nat → accepted n k → False.
Proof. intros [?|?]; simpl in *; [lia|done]. Qed.

(** The scan returns the code of the first entry that is neither short
    nor rejected. *)
Lemma fuzzy_scan_first n items c :
  fuzzy_scan n items = Some c ↔
  ∃ before k after,
    items = before ++ (k, c) :: after
    ∧ (3 ≤ String.length k)%nat ∧ accepted n k
    ∧ Forall (passed_over n) before.
Proof.
  induction items as [|[k0 c0] items IH].
  - simpl. split; [done|]. intros (before & k & after & H & _). by destruct before.
  - destruct (fuzzy_scan_cases n k0 c0) as [[Hlen Hacc]|Hpass].
    + rewrite (fuzzy_scan_takes _ _ _ _ Hlen Hacc). split.
      * intros [= ->]. by exists [], k0, items.
      * intros ([|item before] & k & after & H & _ & _ & Hbefore); simplify_eq/=; [done|].
        inversion Hbefore as [|? ? Hpass _]; subst.
        destruct (passed_over_not_taken _ _ _ Hpass Hlen Hacc).
    + rewrite (fuzzy_scan_passes _ _ _ Hpass), IH. split.
      * intros (before & k & after & -> & Hk & Hacc & Hbefore).
        exists ((k0, c0) :: before), k, after. split_and!; [done..|by constructor].
      * intros ([|item before] & k & after & H & Hk & Hacc & Hbefore); simplify_eq/=.
        -- destruct (passed_over_not_taken _ _ _ Hpass Hk Hacc).
        -- exists before, k, after. inversion Hbefore; subst. done.
Qed.

Lemma fuzzy_scan_nothing n items :
  fuzzy_scan n items = None ↔ Forall (passed_over n) items.
Proof.
  induction items as [|[k0 c0] items IH]; [by split; [constructor|]|].
  destruct (fuzzy_scan_cases n k0 c0) as [[Hlen Hacc]|Hpass].
  - rewrite (fuzzy_scan_takes _ _ _ _ Hlen Hacc). split; [done|].
    intros Hall. inversion Hall as [|? ? Hpass _]; subst.
    destruct (passed_over_not_taken _ _ _ Hpass Hlen Hacc).
  - rewrite (fuzzy_scan_passes _ _ _ Hpass), IH. split.
    + by constructor.
    + by inversion 1.
Qed.

(** C5. For a candidate institution, that is, one whose normalized name
    is not empty: an exact hit on the normalized name gives that
    entry's country code, whatever the fuzzy scan would find; the fuzzy
    scan runs only when there is no exact hit and the normalized name
    has at least three characters; it passes over keys shorter than
    three characters, accepts a pair exactly when one name contains the
    other and the contained name has at least four characters, and
    returns the code of the first accepted entry in table order. *)
Theorem institution_matching (ud : university_data) (institution : string) :
  let normalized_name := normalize_institution_name institution in
  let table := institution_to_country ud in
  (normalized_name = "" → institution_code ud institution = None)
  ∧ (∀ c, normalized_name ≠ "" → Dict.get normalized_name table = Some c →
       institution_code ud institution = Some c)
  ∧ (Dict.get normalized_name table = None →
     (String.length normalized_name < 3)%nat →
       institution_code ud institution = None)
  ∧ (Dict.get normalized_name table = None →
     (3 ≤ String.length normalized_name)%nat →
       institution_code ud institution = fuzzy_scan normalized_name table)
  ∧ (∀ n items c,
       fuzzy_scan n items = Some c ↔
       ∃ before k after,
         items = before ++ (k, c) :: after
         ∧ (3 ≤ String.length k)%nat ∧ accepted n k
         ∧ Forall (passed_over n) before)
  ∧ (∀ n items, fuzzy_scan n items = None ↔ Forall (passed_over n) items)
  ∧ (∀ n k, fuzzy_accepts n k = true ↔ accepted n k).
Proof.
  intros normalized_name table. unfold institution_code.
  fold normalized_name. fold table. split_and!.
  - intros ->. done.
  - intros c Hne Hget. rewrite bool_decide_eq_false_2 by done. by rewrite Hget.
  - intros Hget Hlen. case_bool_decide; [done|]. rewrite Hget.
    apply Nat.leb_gt in Hlen. by rewrite Hlen.
  - intros Hget Hlen. rewrite bool_decide_eq_false_2.
    + rewrite Hget. apply Nat.leb_le in Hlen. by rewrite Hlen.
    + intros Heq. rewrite Heq in Hlen. simpl in Hlen. lia.
  - apply fuzzy_scan_first.
  - apply fuzzy_scan_nothing.
  - apply fuzzy_accepts_spec.
Qed.

Lemma institution_matching_witness :
  normalize_institution_name "Massachusetts Institute of Technology" ≠ ""
  ∧ Dict.get (normalize_institution_name "Massachusetts Institute of Technology")
      (institution_to_country Sample.ud) = Some "US"
  ∧ institution_code Sample.ud "Massachusetts Institute of Technology" = Some "US".
Proof.
  assert (H1 : normalize_institution_name "Massachusetts Institute of Technology" ≠ "")
    by (vm_compute; discriminate).
  assert (H2 : Dict.get (normalize_institution_name "Massachusetts Institute of Technology")
                 (institution_to_country Sample.ud) = Some "US")
    by (vm_compute; reflexivity).
  split_and!; [exact H1|exact H2|].
  exact (proj1 (proj2 (institution_matching Sample.ud
                         "Massachusetts Institute of Technology")) "US" H1 H2).
Defined.

Lemma dict_set_keys {V : Type} (k : string) (v : V) (d : list (string * V)) :
  (Dict.set k v d).*1 = if bool_decide (k ∈ d.*1) then d.*1 else d.*1 ++ [k].
Proof.
  induction d as [|[k' v'] d IH]; [done|]. cbn [Dict.set].
  rewrite !fmap_cons. cbn [fst].
  destruct (decide (k = k')) as [->|Hne].
  - rewrite bool_decide_eq_true_2 by done. rewrite fmap_cons. cbn [fst].
    rewrite bool_decide_eq_true_2 by apply list_elem_of_here. done.
  - rewrite bool_decide_eq_false_2 by done. rewrite fmap_cons, IH. cbn [fst].
    destruct (decide (k ∈ d.*1)) as [Hin|Hin].
    + rewrite !bool_decide_eq_true_2; [done| |done]. by apply list_elem_of_further.
    + rewrite !bool_decide_eq_false_2; [done| |done].
      rewrite elem_of_cons. by intros [?|?].
Qed.

(** The institution table the loader builds is a dictionary: its keys
    are distinct, and none is empty. *)
Lemma loaded_institution_keys (universities : list university) :
  let table := institution_to_country (load_universities_data universities) in
  NoDup table.*1 ∧ "" ∉ table.*1.
Proof.
  unfold load_universities_data.
  set (start := {| domain_to_country := ∅; institution_to_country := [];
                   code_to_country_name := ∅ |}).
  assert (Hstart : NoDup (institution_to_country start).*1
                   ∧ "" ∉ (institution_to_country start).*1).
  { simpl. split; [constructor|set_solver]. }
  revert Hstart. generalize start. clear start.
  induction universities as [|uni unis IH]; intros acc Hacc; simpl; [done|].
  apply IH. destruct Hacc as [Hnd Hne]. unfold load_university. simpl.
  case_bool_decide; [done|]. case_bool_decide as Hn; [done|].
  rewrite dict_set_keys. case_bool_decide as Hin; [done|]. split.
  - apply NoDup_app. split_and!; [done| |apply NoDup_singleton].
    intros x Hx ->%list_elem_of_singleton. done.
  - rewrite elem_of_app, list_elem_of_singleton. intros [?|?]; [done|]. by apply Hn.
Qed.

End Institutions.

(** ** The label of a freshly resolved row *)

Section Flag.

Import CountryMatching EnglishLabels.

Lemma loaded_toefl_no_empty_key rows : load_toefl_requirements rows !! "" = None.
Proof.
  unfold load_toefl_requirements.
  assert (Hstart : (∅ : gmap string string) !! "" = None) by apply lookup_empty.
  revert Hstart. generalize (∅ : gmap string string).
  induction rows as [|row rows IH]; intros acc Hacc; simpl; [done|].
  apply IH. case_bool_decide as Hc; [done|].
  rewrite lookup_insert_ne; [done|]. by rewrite lower_empty.
Qed.

(** With a loaded TOEFL table, the test of the flag loop holds for a
    code exactly when the code has a display name whose lowercase form
    is listed with the requirement [Exempt]. *)
Lemma exempt_spec ud rows code :
  exempt ud (load_toefl_requirements rows) code = true ↔
  ∃ name, code_to_country_name ud !! code = Some name
          ∧ load_toefl_requirements rows !! PyStr.lower name = Some "Exempt".
Proof.
  unfold exempt. rewrite andb_true_iff, negb_true_iff, bool_decide_eq_false,
    bool_decide_eq_true. split.
  - intros [Hname Hreq]. destruct (code_to_country_name ud !! code) as [name|]; [|done].
    exists name. split; [done|]. simpl in Hreq.
    by destruct (load_toefl_requirements rows !! PyStr.lower name) as [?|]; simplify_eq/=.
  - intros (name & -> & Hreq). simpl. rewrite Hreq. split; [|done].
    intros ->. simpl in Hreq. by rewrite loaded_toefl_no_empty_key in Hreq.
Qed.

Lemma english_flag_of_cases ud toefl codes :
  (english_flag_of ud toefl codes = 1 ∧ ∃ code, code ∈ codes ∧ exempt ud toefl code = true)
  ∨ (english_flag_of ud toefl codes = 0 ∧ ∀ code, code ∈ codes → exempt ud toefl code = false).
Proof.
  induction codes as [|code codes IH]; simpl.
  - right. split; [done|]. by intros ? ?%elem_of_nil.
  - destruct (exempt ud toefl code) eqn:Hcode.
    + left. split; [done|]. exists code. split; [apply list_elem_of_here|done].
    + destruct IH as [[H1 (c & Hc & He)]|[H0 Hall]].
      * left. split; [done|]. exists c. split; [by apply list_elem_of_further|done].
      * right. split; [done|]. intros c [->|Hc]%elem_of_cons; [done|by apply Hall].
Qed.

Lemma label_fresh_flag ud toefl step3 r :
  country_set ud step3 r ≠ ∅ →
  label (label_fresh ud toefl step3 r)
    = english_flag_of ud toefl (elements (country_set ud step3 r)).
Proof.
  unfold label_fresh, country_set. intros Hne.
  destruct (valid_current_country (current_country (row r))) as [c|] eqn:Hcur.
  - rewrite (bool_decide_eq_true_2 (is_Some (Some c))) by eauto.
    rewrite andb_false_r. simpl. by rewrite bool_decide_eq_false_2.
  - simpl in *. rewrite (bool_decide_eq_true_2 _ Hne). simpl.
    by rewrite bool_decide_eq_false_2.
Qed.



End Flag.

(** ** Reading the education history *)

Section Education.

Import CountryMatching.

Variable json_loads : string -> option json.

(** Missing, empty, blank and undecodable input, and a document that is
    not iterable, give the empty list. *)
Lemma extract_nothing (education_background : pyvalue) :
  education_background = VNone
  ∨ education_background = VNan
  ∨ (∃ text, (education_background = VStr text ∨ education_background = VOther text)
       ∧ (PyStr.strip text = ""
          ∨ json_loads text = None
          ∨ ∃ j, json_loads text = Some j ∧ iterate j = Raised TypeError)) →
  extract_institutions_from_education json_loads education_background = Returned [].
Proof.
  intros [->|[->|(text & Hv & Hcase)]]; [done..|].
  assert (Hgoal :
    (if bool_decide (text = "") || bool_decide (PyStr.strip text = "")
     then Returned []
     else try_except
            (education_data ← loads json_loads text;
             entries ← iterate education_data;
             for_each collect_institution entries [])
            [ValueError; TypeError] [])
    = (Returned [] : outcome (list json))).
  { destruct (bool_decide (text = "") || bool_decide (PyStr.strip text = ""))
      eqn:Hblank; [done|].
    apply orb_false_iff in Hblank as [_ Hstrip%bool_decide_eq_false].
    destruct Hcase as [?|[Hload|(j & Hload & Hiter)]]; [done| |];
      unfold loads; rewrite Hload; simpl; [done|]. by rewrite Hiter. }
  destruct Hv as [-> | ->]; exact Hgoal.
Qed.

(** An entry that is a dictionary never raises; its institution is kept
    when it is truthy. *)
Lemma collect_dictionary institutions members :
  collect_institution institutions (JObj members)
    = Returned
        (let institution := default (JStr "") (Dict.get "institution" members) in
         if truthy institution then institutions ++ [institution] else institutions).
Proof.
  unfold collect_institution. simpl.
  by destruct (truthy (default (JStr "") (Dict.get "institution" members))).
Qed.

(** C4. [extract_institutions_from_education] does raise: when the text
    decodes to an array whose first item is not a dictionary, the call of
    [get] on that item raises [AttributeError], which the [except]
    clause does not list. *)
Theorem extract_raises_attribute_error (text : string) (entry : json)
    (rest : list json) :
  PyStr.strip text ≠ "" →
  json_loads text = Some (JArr (entry :: rest)) →
  (∀ members, entry ≠ JObj members) →
  extract_institutions_from_education json_loads (VStr text) = Raised AttributeError.
Proof.
  intros Hstrip Hload Hentry. unfold extract_institutions_from_education.
  rewrite (bool_decide_eq_false_2 (text = "")) by (by apply strip_nonempty_raw).
  rewrite (bool_decide_eq_false_2 (PyStr.strip text = "")) by done. simpl.
  unfold loads. rewrite Hload. simpl.
  destruct entry; try done. by destruct (Hentry members).
Qed.

End Education.

Lemma extract_raises_attribute_error_witness :
  PyStr.strip "[1]" ≠ ""
  ∧ CountryMatching.extract_institutions_from_education Sample.json_loads (VStr "[1]")
      = Raised AttributeError.
Proof.
  assert (H : PyStr.strip "[1]" ≠ "") by (vm_compute; discriminate).
  split; [exact H|].
  apply (extract_raises_attribute_error Sample.json_loads "[1]" (JNum 1) [] H eq_refl).
  intros members. discriminate.
Defined.

(** ** Cleaning the stored label *)

Section Cleaning.

Import EnglishLabels.

Variable float_of_str : string -> option pyfloat.

Lemma int_of_integer (z : Z) : int_of_float (FFinite (inject_Z z)) = Returned z.
Proof. simpl. by rewrite Z.quot_1_r. Qed.

(** On a missing cell, on NaN, on text that is no number, and on a
    whole number, [clean_label] does what its name says: only 0, 1
    and -1 are kept. *)
Lemma clean_label_whole :
  clean_label float_of_str LMissing = Returned None
  ∧ clean_label float_of_str (LNum FNan) = Returned None
  ∧ (∀ s, float_of_str s = None → clean_label float_of_str (LStr s) = Returned None)
  ∧ (∀ s, float_of_str s = Some FNan → clean_label float_of_str (LStr s) = Returned None)
  ∧ (∀ z, clean_label float_of_str (LNum (FFinite (inject_Z z)))
          = Returned (if is_label z then Some z else None)).
Proof.
  split_and!; try done.
  - intros s Hs. unfold clean_label. simpl. by rewrite Hs.
  - intros s Hs. unfold clean_label. simpl. by rewrite Hs.
  - intros z. unfold clean_label. cbn [isna to_float]. cbn [mbind outcome_bind].
    rewrite int_of_integer. cbn [mbind outcome_bind]. by destruct (is_label z).
Qed.

(** Whatever [clean_label] returns is missing or one of 0, 1, -1. *)
Lemma clean_label_range val cleaned :
  clean_label float_of_str val = Returned (Some cleaned) →
  cleaned = 0 ∨ cleaned = 1 ∨ cleaned = -1.
Proof.
  unfold clean_label. destruct (isna val); [done|].
  destruct (to_float float_of_str val) as [x|e]; simpl.
  - destruct x as [| |q]; simpl; [done|done|].
    destruct (is_label _) eqn:Hl; simpl; [|done]. intros [= <-].
    apply bool_decide_eq_true in Hl.
    rewrite !elem_of_cons, elem_of_nil in Hl. tauto.
  - by case_bool_decide.
Qed.

(** C7. The cleaning step does not reset every value outside 0, 1, -1:
    the stored value 0.5 is truncated to 0 and then counts as a valid
    label, so that its author enters the preserved-label set; and an
    infinite stored value makes [clean_label] raise [OverflowError],
    which its [except] clause does not list. *)
Theorem clean_label_truncates :
  clean_label float_of_str (LNum (FFinite (1 # 2))) = Returned (Some 0)
  ∧ (∀ r, cleaned_label r = Some 0 → has_valid_label r = true)
  ∧ clean_label float_of_str (LNum (FFinite (19 # 10))) = Returned (Some 1)
  ∧ clean_label float_of_str (LNum (FInf false)) = Raised OverflowError.
Proof.
  split_and!; try reflexivity.
  intros r Hr. unfold has_valid_label. rewrite Hr. reflexivity.
Qed.

End Cleaning.

(** ** The label pass, row by row *)

Section Pass.

Import CountryMatching EnglishLabels.

Variable json_loads : string -> option json.
Variable float_of_str : string -> option pyfloat.
Variable ud : university_data.
Variable toefl : gmap string string.

Lemma apply_each_returned {A B : Type} (f : A → outcome B) xs ys :
  apply_each f xs = Returned ys ↔ Forall2 (fun x y => f x = Returned y) xs ys.
Proof.
  revert ys. induction xs as [|x xs IH]; intros ys; simpl.
  - split; [intros [= <-]; constructor|by inversion 1].
  - destruct (f x) as [y|e] eqn:Hx; simpl.
    + destruct (apply_each f xs) as [ys'|e] eqn:Hxs; simpl.
      * split.
        -- intros [= <-]. constructor; [done|]. by apply IH.
        -- inversion 1 as [|? y' ? ys'' Hy Hys]; subst.
           apply IH in Hys. congruence.
      * split; [done|]. inversion 1 as [|? y' ? ys'' Hy Hys]; subst.
        apply IH in Hys. congruence.
    + split; [done|]. inversion 1; congruence.
Qed.

Lemma prepare_all_returned df rows :
  prepare_all json_loads float_of_str df = Returned rows ↔
  Forall2 (prepared_from json_loads float_of_str) df rows.
Proof.
  unfold prepare_all, prepared_from. split.
  - destruct (apply_each (prepare json_loads) df) as [rows0|e] eqn:H0; [|done].
    simpl. intros H1. apply apply_each_returned in H0, H1.
    clear -H0 H1. revert rows H1.
    induction H0 as [|p r0 df rows0 Hp _ IH]; intros rows H1.
    + inversion H1. constructor.
    + inversion H1 as [|? r ? rows' Hr Hrows]; subst. constructor; [by exists r0|].
      by apply IH.
  - intros H.
    assert (∃ rows0, Forall2 (fun p r0 => prepare json_loads p = Returned r0) df rows0
                     ∧ Forall2 (fun r0 r => clean float_of_str r0 = Returned r) rows0 rows)
      as (rows0 & H0 & H1).
    { induction H as [|p r df rows (r0 & Hp & Hr) _ (rows0 & H0 & H1)].
      - exists []. split; constructor.
      - exists (r0 :: rows0). split; by constructor. }
    apply apply_each_returned in H0, H1. by rewrite H0.
Qed.

(** The prepared row keeps the input row; its helper columns depend on
    the e-mail and education cells only, and its cleaned label on the
    stored label only. *)
Lemma prepared_from_row p r :
  prepared_from json_loads float_of_str p r →
  row r = p
  ∧ clean_label float_of_str (english_speaker p) = Returned (cleaned_label r).
Proof.
  intros (r0 & Hp & Hr). unfold prepare in Hp. unfold clean in Hr.
  destruct (match education_background p with
            | Some x => _ | None => _ end) as [institutions|e]; [|done].
  simpl in Hp. injection Hp as <-. simpl in Hr.
  destruct (clean_label float_of_str (english_speaker p)) as [c|e]; [|done].
  simpl in Hr. by injection Hr as <-.
Qed.

Lemma prepared_rows df rows :
  Forall2 (prepared_from json_loads float_of_str) df rows → row <$> rows = df.
Proof.
  induction 1 as [|p r df rows Hp _ IH]; [done|].
  rewrite fmap_cons, IH. by destruct (prepared_from_row _ _ Hp) as [-> _].
Qed.

(** *** The final validation acts row by row *)

Lemma reset_settled r :
  out_label r = -1 → out_countries r = None → reset r = r.
Proof. destruct r as [src c l]. simpl. by intros -> ->. Qed.

Lemma final_validation_repair rows :
  Forall settled rows → final_validation rows = repair <$> rows.
Proof.
  intros Hall. unfold final_validation.
  destruct (0 <? length _)%nat eqn:Hcount; [done|].
  apply Nat.ltb_ge in Hcount. apply Nat.le_0_r, length_zero_iff_nil in Hcount.
  symmetry. rewrite <- (list_fmap_id rows) at 2. apply list_fmap_ext.
  intros i r Hr. simpl. unfold repair.
  destruct (no_country_mask r) eqn:Hmask; [|done].
  assert (Hlabel : out_label r = -1).
  { destruct (decide (out_label r = -1)) as [|Hne]; [done|]. exfalso.
    eapply (filter_nil_not_elem_of _ _ r Hcount).
    - rewrite Hmask. simpl. by rewrite bool_decide_eq_false_2.
    - by eapply list_elem_of_lookup_2. }
  apply reset_settled; [done|].
  rewrite Forall_forall in Hall. apply Hall; [|done..].
  by eapply list_elem_of_lookup_2.
Qed.

(** *** The two branches of the loop body *)

Lemma has_country_data_spec stored :
  has_country_data stored = true ↔ backing_data stored.
Proof.
  unfold has_country_data, backing_data. destruct stored as [raw|].
  - rewrite !andb_true_iff, !negb_true_iff, !bool_decide_eq_false.
    rewrite !elem_of_cons, elem_of_nil. split.
    + intros [[H1 H2] H3]. exists raw. split_and!; [done..| | |done]; intros ?; apply H2; tauto.
    + intros (raw' & [= <-] & H1 & H2 & H3 & H4). split_and!; [done| |done]. tauto.
  - split; [done|]. by intros (raw & ? & _).
Qed.

Lemma backing_data_not_masked src raw l :
  PyStr.strip raw ≠ "" →
  no_country_mask {| source_row := src; out_countries := Some raw; out_label := l |}
    = false.
Proof.
  intros H. unfold no_country_mask. simpl.
  rewrite (bool_decide_eq_false_2 (raw = "")) by (by apply strip_nonempty_raw).
  by rewrite bool_decide_eq_false_2.
Qed.

Lemma english_flag_of_range codes :
  english_flag_of ud toefl codes = 0 ∨ english_flag_of ud toefl codes = 1.
Proof. destruct (english_flag_of_cases ud toefl codes) as [[-> _]|[-> _]]; auto. Qed.

(** A row that goes through resolution ends without country and with
    -1, or with country text and the label 0 or 1. *)
Lemma label_fresh_shape step3 r :
  let d := label_fresh ud toefl step3 r in
  (countries d = None ∧ label d = -1)
  ∨ (∃ s, countries d = Some s ∧ (label d = 0 ∨ label d = 1)).
Proof.
  unfold label_fresh. cbv zeta.
  destruct (negb _ && negb _); [by left|]. simpl.
  case_bool_decide; [by left|]. right. eexists. split; [done|].
  apply english_flag_of_range.
Qed.

Lemma label_preserved_data r :
  has_country_data (education_countries (row r)) = true →
  countries (label_preserved r) = education_countries (row r)
  ∧ label (label_preserved r) = existing_label_of (cleaned_label r).
Proof. unfold label_preserved. by intros ->. Qed.

Lemma label_preserved_no_data r :
  has_country_data (education_countries (row r)) = false →
  countries (label_preserved r) = None ∧ label (label_preserved r) = -1.
Proof. unfold label_preserved. by intros ->. Qed.

Lemma label_row_settled step3 awl r :
  settled (write_columns r (label_row ud toefl step3 awl r)).
Proof.
  unfold settled, write_columns, label_row. case_bool_decide.
  - destruct (has_country_data (education_countries (row r))) eqn:Hdata.
    + destruct (label_preserved_data r Hdata) as [Hc _].
      apply has_country_data_spec in Hdata as (raw & Hraw & Hstrip & _).
      intros _. rewrite Hc, Hraw. by rewrite backing_data_not_masked.
    + by destruct (label_preserved_no_data r Hdata) as [-> _].
  - destruct (label_fresh_shape step3 r) as [[Hc _]|(s & _ & Hl)]; [done|].
    simpl. intros Hm. rewrite Hm in Hl. by destruct Hl.
Qed.

Lemma process_with_returned step3 df out :
  process_with json_loads float_of_str ud toefl step3 df = Returned out ↔
  ∃ rows, Forall2 (prepared_from json_loads float_of_str) df rows
          ∧ out = row_out ud toefl step3 (authors_with_labels_of rows) <$> rows.
Proof.
  unfold process_with.
  destruct (prepare_all json_loads float_of_str df) as [rows|e] eqn:Hrows; simpl.
  - apply prepare_all_returned in Hrows.
    rewrite final_validation_repair
      by (apply Forall_fmap, Forall_forall; intros r _; apply label_row_settled).
    rewrite <- list_fmap_compose. split.
    + intros [= <-]. exists rows. split; [done|reflexivity].
    + intros (rows' & Hrows' & ->). apply prepare_all_returned in Hrows, Hrows'.
      assert (rows' = rows) as -> by congruence. reflexivity.
  - split; [done|]. intros (rows & Hrows' & _).
    apply prepare_all_returned in Hrows'. congruence.
Qed.

(** A row with a valid cleaned label is in the preserved-label set. *)
Lemma valid_label_in_set rows r :
  r ∈ rows → has_valid_label r = true →
  author_name (row r) ∈ authors_with_labels_of rows.
Proof.
  intros Hr Hv. unfold authors_with_labels_of.
  apply elem_of_list_to_set, list_elem_of_fmap. exists r. split; [done|].
  apply list_elem_of_filter. split; [by rewrite Hv|done].
Qed.

Lemma in_set_valid_label rows name :
  name ∈ authors_with_labels_of rows →
  ∃ r, r ∈ rows ∧ has_valid_label r = true ∧ author_name (row r) = name.
Proof.
  unfold authors_with_labels_of.
  intros (r & -> & [Hv Hr]%list_elem_of_filter)%elem_of_list_to_set%list_elem_of_fmap.
  exists r. split_and!; [done| |done]. by destruct (has_valid_label r).
Qed.

Lemma existing_label_valid l :
  l = 0 ∨ l = 1 → existing_label_of (Some l) = l.
Proof. by intros [-> | ->]. Qed.

Lemma has_valid_label_spec r :
  has_valid_label r = true ↔ cleaned_label r = Some 0 ∨ cleaned_label r = Some 1.
Proof.
  unfold has_valid_label. destruct (cleaned_label r) as [l|].
  - rewrite bool_decide_eq_true, !elem_of_cons, elem_of_nil.
    split; [intros [->|[->|[]]]; auto|intros [[= ->]|[= ->]]; auto].
  - split; [done|]. by intros [?|?].
Qed.

(** What the pass returns for a row in the preserved-label set. *)
Lemma row_out_preserved step3 awl r :
  author_name (row r) ∈ awl →
  (has_country_data (education_countries (row r)) = true →
     out_countries (row_out ud toefl step3 awl r) = education_countries (row r)
     ∧ out_label (row_out ud toefl step3 awl r) = existing_label_of (cleaned_label r))
  ∧ (has_country_data (education_countries (row r)) = false →
     out_countries (row_out ud toefl step3 awl r) = None
     ∧ out_label (row_out ud toefl step3 awl r) = -1).
Proof.
  intros Hin. unfold row_out, label_row. rewrite bool_decide_eq_true_2 by done.
  split; intros Hdata.
  - destruct (label_preserved_data r Hdata) as [Hc Hl].
    apply has_country_data_spec in Hdata as (raw & Hraw & Hstrip & _).
    unfold repair, write_columns. rewrite Hc, Hl, Hraw.
    by rewrite backing_data_not_masked.
  - destruct (label_preserved_no_data r Hdata) as [Hc Hl].
    unfold repair, write_columns. rewrite Hc, Hl. done.
Qed.

(** C3, as the code has it. For an author whose stored label cleans to
    0 or 1: when the stored country text, trimmed of surrounding white
    space, is not empty, not [nan], not [None] and does not start with
    a brace, the pass returns the stored country text and the stored
    label for that row, and the row does not reach the call of
    [find_country_codes]; otherwise it returns the label -1 and no
    country text. *)
Theorem preserved_label_rule (df : list profile) (out : list labelled)
    (i : nat) (p : profile) (r : labelled) (l : Z) :
  process_author_profiles json_loads float_of_str ud toefl df = Returned out →
  df !! i = Some p →
  out !! i = Some r →
  clean_label float_of_str (english_speaker p) = Returned (Some l) →
  l = 0 ∨ l = 1 →
  (backing_data (education_countries p) →
     out_countries r = education_countries p ∧ out_label r = l)
  ∧ (¬ backing_data (education_countries p) →
     out_countries r = None ∧ out_label r = -1)
  ∧ (∃ ds d, decisions json_loads float_of_str ud toefl true df = Returned ds
             ∧ ds !! i = Some d ∧ resolved d = false).
Proof.
  intros Hrun Hp Hr Hclean Hl.
  apply process_with_returned in Hrun as (rows & Hrows & ->).
  destruct (Forall2_lookup_l _ _ _ _ _ Hrows Hp) as (q & Hq & Hpq).
  destruct (prepared_from_row _ _ Hpq) as [Hrow Hc].
  assert (Hcl : cleaned_label q = Some l) by congruence.
  assert (Hvalid : has_valid_label q = true).
  { apply has_valid_label_spec. rewrite Hcl. destruct Hl as [-> | ->]; auto. }
  assert (Hin : author_name (row q) ∈ authors_with_labels_of rows).
  { apply valid_label_in_set; [by eapply list_elem_of_lookup_2|done]. }
  rewrite list_lookup_fmap, Hq in Hr. injection Hr as <-.
  destruct (row_out_preserved true _ _ Hin) as [Hdata Hnodata].
  rewrite Hrow, Hcl, (existing_label_valid _ Hl) in Hdata. rewrite Hrow in Hnodata.
  split_and!.
  - intros Hb. apply Hdata. by apply has_country_data_spec.
  - intros Hb. apply Hnodata. apply not_true_iff_false.
    by rewrite has_country_data_spec.
  - exists (label_row ud toefl true (authors_with_labels_of rows) <$> rows),
           (label_row ud toefl true (authors_with_labels_of rows) q).
    split_and!.
    + unfold decisions. apply prepare_all_returned in Hrows. by rewrite Hrows.
    + by rewrite list_lookup_fmap, Hq.
    + unfold label_row. by rewrite bool_decide_eq_true_2.
Qed.

Lemma NoDup_fmap_same {A B : Type} (f : A → B) (xs : list A) x y :
  NoDup (f <$> xs) → x ∈ xs → y ∈ xs → f x = f y → x = y.
Proof.
  induction xs as [|z xs IH]; [by intros _ ?%elem_of_nil|].
  rewrite fmap_cons, NoDup_cons. intros [Hz Hnd].
  intros [->|Hx]%elem_of_cons [->|Hy]%elem_of_cons Hf; [done| | |by apply IH].
  - destruct Hz. rewrite Hf. by apply list_elem_of_fmap_2.
  - destruct Hz. rewrite <- Hf. by apply list_elem_of_fmap_2.
Qed.

(** With distinct author names, a row is in the preserved-label set
    only if its own cleaned label is 0 or 1. *)
Lemma in_set_own_label df rows r :
  NoDup (author_name <$> df) →
  Forall2 (prepared_from json_loads float_of_str) df rows →
  r ∈ rows →
  author_name (row r) ∈ authors_with_labels_of rows →
  has_valid_label r = true.
Proof.
  intros Hnd Hrows Hr (r' & Hr' & Hv & Hname)%in_set_valid_label.
  rewrite <- (prepared_rows _ _ Hrows), <- list_fmap_compose in Hnd.
  by rewrite <- (NoDup_fmap_same (author_name ∘ row) rows r' r Hnd Hr' Hr Hname).
Qed.


(** *** A second pass over the returned frame *)

Lemma row_out_source step3 awl q :
  source_row (row_out ud toefl step3 awl q) = row q.
Proof. unfold row_out, repair. by destruct (no_country_mask _). Qed.

Lemma prepared_from_second p q o :
  prepared_from json_loads float_of_str p q →
  source_row o = p →
  prepared_from json_loads float_of_str (as_profile o) (second_row o q).
Proof.
  intros (r0 & Hp & Hr) Hsrc. unfold prepared_from, prepare, clean in *.
  rewrite <- Hsrc in Hp. cbn [as_profile all_emails education_background].
  destruct (match education_background (source_row o) with
            | Some x => _ | None => _ end) as [institutions|e]; [|done].
  simpl in Hp. injection Hp as <-. simpl in Hr.
  destruct (clean_label float_of_str (english_speaker (source_row o))) as [c|e];
    [|done].
  simpl in Hr. injection Hr as <-.
  eexists. split; [reflexivity|]. cbn [row english_speaker as_profile].
  rewrite (proj2 (proj2 (proj2 (proj2 (clean_label_whole float_of_str))))).
  reflexivity.
Qed.

Lemma second_rows df rows step3 awl :
  Forall2 (prepared_from json_loads float_of_str) df rows →
  Forall2 (prepared_from json_loads float_of_str)
    (as_profile <$> (row_out ud toefl step3 awl <$> rows))
    (rerun_row ud toefl step3 awl <$> rows).
Proof.
  induction 1 as [|p q df rows Hpq _ IH]; [constructor|].
  rewrite !fmap_cons. constructor; [|exact IH].
  apply (prepared_from_second p); [done|].
  rewrite row_out_source. by destruct (prepared_from_row _ _ Hpq).
Qed.

Lemma label_fresh_same step3 q q' :
  filtered_email_domains q = filtered_email_domains q' →
  institutions_from_education q = institutions_from_education q' →
  current_country (row q) = current_country (row q') →
  label_fresh ud toefl step3 q = label_fresh ud toefl step3 q'.
Proof.
  intros H1 H2 H3. unfold label_fresh, resolve_countries. by rewrite H1, H2, H3.
Qed.

(** The two written columns of a repaired row depend on the decision
    only. *)
Lemma repair_columns q q' d :
  out_countries (repair (write_columns q d)) = out_countries (repair (write_columns q' d))
  ∧ out_label (repair (write_columns q d)) = out_label (repair (write_columns q' d)).
Proof.
  unfold repair, no_country_mask, write_columns. simpl.
  by destruct (countries d) as [s|]; [destruct (_ || _)|].
Qed.

(** A row that went through resolution: -1 without country text, or 0
    or 1 with it. *)
Lemma row_out_fresh_shape step3 awl q :
  author_name (row q) ∉ awl →
  let o := row_out ud toefl step3 awl q in
  o = repair (write_columns q (label_fresh ud toefl step3 q))
  ∧ ((out_countries o = None ∧ out_label o = -1)
     ∨ (∃ s, out_countries o = Some s ∧ (out_label o = 0 ∨ out_label o = 1))).
Proof.
  intros Hin. cbv zeta. unfold row_out, label_row.
  rewrite bool_decide_eq_false_2 by done. split; [done|].
  unfold repair. destruct (no_country_mask _); [by left|].
  unfold write_columns. simpl.
  destruct (label_fresh_shape step3 q) as [[-> ->]|(s & -> & Hl)]; [by left|].
  right. by exists s.
Qed.

Lemma as_profile_second o1 o2 :
  source_row o2 = as_profile o1 →
  out_countries o2 = out_countries o1 →
  out_label o2 = out_label o1 →
  as_profile o2 = as_profile o1.
Proof. intros H1 H2 H3. unfold as_profile. by rewrite H1, H2, H3. Qed.

Section SecondPass.

Variable step3 : bool.
Variable rows1 : list prepared.

Local Abbreviation awl1 := (authors_with_labels_of rows1).
Local Abbreviation again := (rerun_row ud toefl step3 awl1).
Local Abbreviation awl2 := (authors_with_labels_of (again <$> rows1)).

(** A row that left the first pass with a valid label and backing
    country text leaves the second pass with the same two cells. *)
Lemma second_pass_keeps q :
  q ∈ rows1 →
  out_label (row_out ud toefl step3 awl1 q) = 0
  ∨ out_label (row_out ud toefl step3 awl1 q) = 1 →
  backing_data (out_countries (row_out ud toefl step3 awl1 q)) →
  out_countries (row_out ud toefl step3 awl2 (again q))
    = out_countries (row_out ud toefl step3 awl1 q)
  ∧ out_label (row_out ud toefl step3 awl2 (again q))
    = out_label (row_out ud toefl step3 awl1 q).
Proof.
  intros Hq Hl Hb.
  assert (Hcl : cleaned_label (again q)
                = Some (out_label (row_out ud toefl step3 awl1 q))).
  { unfold rerun_row, second_row. simpl. by destruct Hl as [-> | ->]. }
  assert (Hin : author_name (row (again q)) ∈ awl2).
  { apply valid_label_in_set; [by apply list_elem_of_fmap_2|].
    apply has_valid_label_spec. rewrite Hcl. destruct Hl as [-> | ->]; auto. }
  destruct (row_out_preserved step3 _ _ Hin) as [Hdata _].
  rewrite Hcl, (existing_label_valid _ Hl) in Hdata. apply Hdata.
  by apply has_country_data_spec.
Qed.

(** A row that went through resolution in the first pass and whose
    country text, if any, backs its label, leaves the second pass
    with the same two cells. *)
Lemma second_pass_same q :
  q ∈ rows1 →
  author_name (row q) ∉ awl1 →
  out_countries (row_out ud toefl step3 awl1 q) = None
  ∨ backing_data (out_countries (row_out ud toefl step3 awl1 q)) →
  out_countries (row_out ud toefl step3 awl2 (again q))
    = out_countries (row_out ud toefl step3 awl1 q)
  ∧ out_label (row_out ud toefl step3 awl2 (again q))
    = out_label (row_out ud toefl step3 awl1 q).
Proof.
  intros Hq Hfresh Hback.
  destruct (row_out_fresh_shape step3 awl1 q Hfresh) as [Ho1 Hshape].
  destruct Hshape as [[Hc Hl]|(s & Hc & Hl)].
  - rewrite Hc, Hl.
    destruct (decide (author_name (row (again q)) ∈ awl2)) as [Hin|Hout].
    + destruct (row_out_preserved step3 _ _ Hin) as [_ Hnodata].
      apply Hnodata. unfold rerun_row, second_row. simpl. by rewrite Hc.
    + destruct (row_out_fresh_shape step3 awl2 (again q) Hout) as [-> _].
      rewrite (label_fresh_same step3 (again q) q); [| done | done |].
      * destruct (repair_columns (again q) q (label_fresh ud toefl step3 q))
          as [-> ->].
        rewrite <- Ho1. by rewrite Hc, Hl.
      * unfold rerun_row, second_row. simpl. by rewrite row_out_source.
  - apply second_pass_keeps; [done..|].
    destruct Hback as [Hnone|Hb]; [congruence|done].
Qed.

End SecondPass.

Lemma clean_label_missing val :
  isna val = true → clean_label float_of_str val = Returned None.
Proof. unfold clean_label. by intros ->. Qed.

(** Without stored labels the preserved-label set is empty. *)
Lemma no_labels_no_set df rows name :
  Forall (fun p => isna (english_speaker p) = true) df →
  Forall2 (prepared_from json_loads float_of_str) df rows →
  name ∉ authors_with_labels_of rows.
Proof.
  intros Hna Hrows (r & Hr & Hv & _)%in_set_valid_label.
  apply list_elem_of_lookup in Hr as [i Hi].
  destruct (Forall2_lookup_r _ _ _ _ _ Hrows Hi) as (p & Hp & Hpr).
  destruct (prepared_from_row _ _ Hpr) as [_ Hc].
  rewrite Forall_forall in Hna.
  rewrite clean_label_missing in Hc
    by (apply Hna; by eapply list_elem_of_lookup_2).
  injection Hc as Hc. unfold has_valid_label in Hv. by rewrite <- Hc in Hv.
Qed.


End Pass.

(** ** The label pass on the sample frame *)

Section SamplePass.

Import CountryMatching EnglishLabels.


Lemma preserved_label_rule_witness :
  ∃ r, Sample.run [Sample.dee] = Returned [r]
       ∧ clean_label Sample.float_of_str (english_speaker Sample.dee)
           = Returned (Some 1)
       ∧ backing_data (education_countries Sample.dee)
       ∧ out_countries r = Some "US" ∧ out_label r = 1.
Proof.
  assert (Hrun : ∃ r, Sample.run [Sample.dee] = Returned [r])
    by (eexists; vm_compute; reflexivity).
  destruct Hrun as [r Hrun].
  assert (Hclean : clean_label Sample.float_of_str (english_speaker Sample.dee)
                   = Returned (Some 1)) by (vm_compute; reflexivity).
  assert (Hback : backing_data (education_countries Sample.dee)).
  { exists "US". split_and!; [reflexivity|vm_compute; discriminate..|reflexivity]. }
  exists r. split_and!; [exact Hrun|exact Hclean|exact Hback|..];
    apply (proj1 (preserved_label_rule Sample.json_loads Sample.float_of_str
                    Sample.ud Sample.toefl [Sample.dee] [r] 0 Sample.dee r 1
                    Hrun eq_refl eq_refl Hclean (or_intror eq_refl)) Hback).
Defined.

(** C3 as stated fails where the stored country text is one blank: it
    is not empty, not [nan], not [None] and starts with no brace, and
    the stored label is 1, yet the pass returns -1 and no country. *)
Lemma blank_country_text_is_reset :
  education_countries Sample.bo = Some " "
  ∧ " " ≠ "" ∧ " " ≠ "nan" ∧ " " ≠ "None" ∧ PyStr.startswith "{" " " = false
  ∧ clean_label Sample.float_of_str (english_speaker Sample.bo) = Returned (Some 1)
  ∧ ∃ r, Sample.run [Sample.bo] = Returned [r]
         ∧ out_countries r = None ∧ out_label r = -1
         ∧ out_countries r ≠ education_countries Sample.bo ∧ out_label r ≠ 1.
Proof.
  split_and!; [reflexivity|discriminate..|reflexivity|vm_compute; reflexivity|].
  eexists. split; [vm_compute; reflexivity|]. simpl. split_and!; done.
Qed.



End SamplePass.

(** * Further properties of the resolver and its tables *)

Section Resolver.

Import CountryMatching.

Lemma add_loop_membership {A : Type} (f : A → option string) (xs : list A)
    (codes : gset string) (c : string) :
  c ∈ foldl (fun codes x => add_code codes (f x)) codes xs ↔
  c ∈ codes ∨ ∃ x, x ∈ xs ∧ f x = Some c.
Proof.
  revert codes. induction xs as [|x xs IH]; intros codes; cbn [foldl].
  - split; [by left|]. intros [?|(x & ?%elem_of_nil & _)]; done.
  - rewrite IH. destruct (f x) as [c'|] eqn:Hx; simpl.
    + rewrite elem_of_union, elem_of_singleton. split.
      * intros [[->|Hc]|(y & Hy & Hf)].
        -- right. exists x. split; [apply list_elem_of_here|done].
        -- by left.
        -- right. exists y. split; [by apply list_elem_of_further|done].
      * intros [Hc|(y & [->|Hy]%elem_of_cons & Hf)].
        -- left. by right.
        -- left. left. congruence.
        -- right. by exists y.
    + split.
      * intros [Hc|(y & Hy & Hf)]; [by left|].
        right. exists y. split; [by apply list_elem_of_further|done].
      * intros [Hc|(y & [->|Hy]%elem_of_cons & Hf)]; [by left|congruence|].
        right. by exists y.
Qed.

(** X1. A code is in the result of [find_country_codes] exactly when some
    institution of the list contributes it (by exact or fuzzy match) or
    some e-mail domain of the list contributes it (by table entry or
    top-level domain): the result is the union of what the single
    signals give, and nothing else. *)
Theorem find_country_codes_membership (ud : university_data)
    (institutions email_domains : list string) (c : string) :
  c ∈ find_country_codes ud institutions email_domains ↔
  (∃ institution, institution ∈ institutions
                  ∧ institution_code ud institution = Some c)
  ∨ (∃ domain, domain ∈ email_domains ∧ domain_code ud domain = Some c).
Proof.
  unfold find_country_codes. rewrite !add_loop_membership.
  split; [intros [[?%elem_of_empty|?]|?]|intros [?|?]]; auto; done.
Qed.

(** X2. The result of [find_country_codes] depends on the two lists only
    through the signals they hold: lists with the same institutions and
    the same domains, in any order and with any repetition, give the
    same set of codes. *)
Theorem find_country_codes_order (ud : university_data)
    (institutions institutions' email_domains email_domains' : list string) :
  (∀ x, x ∈ institutions ↔ x ∈ institutions') →
  (∀ x, x ∈ email_domains ↔ x ∈ email_domains') →
  find_country_codes ud institutions email_domains
    = find_country_codes ud institutions' email_domains'.
Proof.
  intros Hi Hd. apply set_eq. intros c. rewrite !find_country_codes_membership.
  split; (intros [(x & Hx & Hc)|(x & Hx & Hc)];
          [left; exists x; split; [by apply Hi|done]
          |right; exists x; split; [by apply Hd|done]]).
Qed.

Lemma find_country_codes_order_witness :
  find_country_codes Sample.ud ["Tsinghua University"; "Lost College"]
      ["x.ac.uk"; "mit.edu"; "x.ac.uk"]
  = find_country_codes Sample.ud ["Lost College"; "Tsinghua University"]
      ["mit.edu"; "x.ac.uk"].
Proof.
  apply find_country_codes_order; intros x;
    rewrite !elem_of_cons, !elem_of_nil; tauto.
Defined.

Lemma append_assoc (a b c : string) : (a +:+ b) +:+ c = a +:+ b +:+ c.
Proof.
  induction a as [|x a IH]; [done|].
  rewrite (append_cons x a b), (append_cons x (a +:+ b) c), IH.
  by rewrite (append_cons x a (b +:+ c)).
Qed.

Lemma split_last_label (a t : string) :
  PyStr.contains "." t = false →
  (2 ≤ length (PyStr.split "." (a +:+ "." +:+ t)))%nat
  ∧ PyStr.last_part (PyStr.split "." (a +:+ "." +:+ t)) = t.
Proof.
  intros Ht. induction a as [|c a [IHlen IHlast]].
  - rewrite append_empty, append_cons, append_empty. cbn [PyStr.split].
    rewrite bool_decide_eq_true_2 by done. rewrite (split_absent _ _ Ht).
    split; [simpl; lia|done].
  - rewrite append_cons. cbn [PyStr.split].
    destruct (PyStr.split "." (a +:+ "." +:+ t)) as [|p [|p' ps]] eqn:Hsplit;
      [simpl in IHlen; lia..|].
    case_bool_decide; (split; [simpl; lia|exact IHlast]).
Qed.

(** X3. [infer_country_from_tld] looks at the last dot-separated label
    only: for a domain that ends in a dot and a label without dots, the
    result is the entry of the table for that dot and label, whatever
    stands before; so a further sub-domain in front never changes the
    inferred country. *)
Theorem infer_by_last_label (front label : string) :
  PyStr.contains "." label = false →
  infer_country_from_tld (front +:+ "." +:+ label)
    = TLD_TO_COUNTRY !! ("." +:+ label)
  ∧ ∀ sub, infer_country_from_tld (sub +:+ "." +:+ front +:+ "." +:+ label)
           = infer_country_from_tld (front +:+ "." +:+ label).
Proof.
  intros Ht.
  assert (H : ∀ a, infer_country_from_tld (a +:+ "." +:+ label)
                   = TLD_TO_COUNTRY !! ("." +:+ label)).
  { intros a. unfold infer_country_from_tld.
    destruct (split_last_label a label Ht) as [Hlen ->].
    apply Nat.leb_le in Hlen. by rewrite Hlen. }
  split; [apply H|]. intros sub. rewrite (H front).
  rewrite <- (append_assoc "." front ("." +:+ label)).
  rewrite <- (append_assoc sub ("." +:+ front) ("." +:+ label)).
  apply (H (sub +:+ "." +:+ front)).
Qed.

Lemma infer_by_last_label_witness :
  PyStr.contains "." "cn" = false
  ∧ infer_country_from_tld "student.tsinghua.edu.cn" = Some "CN".
Proof.
  split; [reflexivity|].
  change (infer_country_from_tld ("student.tsinghua.edu" +:+ "." +:+ "cn") = Some "CN").
  rewrite (proj1 (infer_by_last_label "student.tsinghua.edu" "cn" eq_refl)).
  vm_compute. reflexivity.
Defined.

End Resolver.

(** ** The loaded tables *)

Section Loaders.

Import CountryMatching.

(** The inner loop over the domains of one university. *)
Lemma domains_loop_lookup (code : string) (doms : list string)
    (m : gmap string string) (k : string) :
  foldl (fun m domain => <[PyStr.lower domain := code]> m) m doms !! k
  = if bool_decide (k ∈ PyStr.lower <$> doms) then Some code else m !! k.
Proof.
  induction doms as [|d doms IH] using rev_ind; [done|].
  rewrite foldl_snoc, fmap_app. cbn [fmap list_fmap].
  destruct (decide (PyStr.lower d = k)) as [<-|Hne].
  - rewrite lookup_insert_eq, bool_decide_eq_true_2; [done|].
    apply elem_of_app. right. apply list_elem_of_here.
  - rewrite lookup_insert_ne by done. rewrite IH.
    destruct (decide (k ∈ PyStr.lower <$> doms)) as [Hin|Hout].
    + rewrite !bool_decide_eq_true_2; [done| |done]. apply elem_of_app. by left.
    + rewrite !bool_decide_eq_false_2; [done| |done].
      rewrite elem_of_app, list_elem_of_singleton. intros [?|?]; [done|congruence].
Qed.

Lemma load_university_domains acc uni k :
  domain_to_country (load_university acc uni) !! k
  = if bool_decide (k ∈ PyStr.lower <$> domains uni)
    then Some (alpha_two_code uni)
    else domain_to_country acc !! k.
Proof. unfold load_university. cbn [domain_to_country]. apply domains_loop_lookup. Qed.

(** X5. The domain table built by [load_universities_data] is keyed by
    lowercase domains only, and for a domain listed in the directory the
    table gives the country code of the last university that lists it
    (compared in lowercase): a later listing overwrites an earlier one. *)
Theorem loaded_domains (universities : list university) :
  (∀ k, is_Some (domain_to_country (load_universities_data universities) !! k) →
        PyStr.lower k = k)
  ∧ (∀ before uni after d,
       universities = before ++ uni :: after →
       d ∈ domains uni →
       (∀ u' d', u' ∈ after → d' ∈ domains u' → PyStr.lower d' ≠ PyStr.lower d) →
       domain_to_country (load_universities_data universities) !! PyStr.lower d
       = Some (alpha_two_code uni)).
Proof.
  unfold load_universities_data. split.
  - induction universities as [|uni unis IH] using rev_ind.
    + intros k. simpl. rewrite lookup_empty. by intros [? ?].
    + intros k. rewrite foldl_snoc, load_university_domains.
      case_bool_decide as Hin; [|apply IH].
      intros _. apply list_elem_of_fmap in Hin as (d & -> & _). apply lower_idem.
  - intros before uni after d -> Hd Hafter. rewrite foldl_app. cbn [foldl].
    induction after as [|u after IH] using rev_ind.
    + cbn [foldl]. rewrite load_university_domains, bool_decide_eq_true_2; [done|].
      by apply list_elem_of_fmap_2.
    + rewrite foldl_snoc, load_university_domains, bool_decide_eq_false_2.
      * apply IH. intros u' d' Hu'. apply Hafter. apply elem_of_app. by left.
      * intros (d' & Heq & Hd')%list_elem_of_fmap.
        apply (Hafter u d'); [|done|done]. apply elem_of_app. right.
        apply list_elem_of_here.
Qed.

Lemma loaded_domains_witness :
  Sample.directory
  = [] ++ {| alpha_two_code := "US"; country := "United States";
             name := "Massachusetts Institute of Technology";
             domains := ["mit.edu"] |}
       :: [ {| alpha_two_code := "CN"; country := "China";
               name := "Tsinghua University";
               domains := ["tsinghua.edu.cn"] |};
            {| alpha_two_code := ""; country := "Nowhere";
               name := "Lost College";
               domains := ["lost.example"] |} ]
  ∧ domain_to_country Sample.ud !! PyStr.lower "mit.edu" = Some "US".
Proof.
  split; [reflexivity|].
  apply (proj2 (loaded_domains Sample.directory) [] _ _ "mit.edu" eq_refl).
  - apply list_elem_of_here.
  - intros u' d' Hu' Hd'. repeat (apply elem_of_cons in Hu' as [->|Hu']);
      [| |by apply elem_of_nil in Hu'];
      simpl in Hd'; apply list_elem_of_singleton in Hd' as ->; vm_compute; discriminate.
Defined.

Lemma load_university_names acc uni k :
  code_to_country_name (load_university acc uni) !! k
  = if bool_decide (k = alpha_two_code uni)
       && bool_decide (alpha_two_code uni ≠ "") && bool_decide (country uni ≠ "")
       && bool_decide (code_to_country_name acc !! k = None)
    then Some (country uni)
    else code_to_country_name acc !! k.
Proof.
  unfold load_university. cbn [code_to_country_name].
  destruct (decide (k = alpha_two_code uni)) as [->|Hne].
  - rewrite (bool_decide_eq_true_2 (alpha_two_code uni = alpha_two_code uni)) by done.
    cbn [andb].
    destruct (bool_decide (alpha_two_code uni ≠ "") && bool_decide (country uni ≠ "")
              && bool_decide (code_to_country_name acc !! alpha_two_code uni = None));
      [by rewrite lookup_insert_eq|done].
  - rewrite (bool_decide_eq_false_2 (k = alpha_two_code uni)) by done. cbn [andb].
    destruct (_ && _ && _); [by rewrite lookup_insert_ne|done].
Qed.

(** X6. The table of country display names built by
    [load_universities_data] never has an empty code or an empty name,
    every entry comes from a university of the directory, and the first
    university that carries a code together with a non-empty country
    name decides the name of that code: later universities never
    replace it. *)
Theorem loaded_country_names (universities : list university) :
  (∀ code display,
     code_to_country_name (load_universities_data universities) !! code = Some display →
     code ≠ "" ∧ display ≠ ""
     ∧ ∃ uni, uni ∈ universities ∧ alpha_two_code uni = code ∧ country uni = display)
  ∧ (∀ before uni after,
       universities = before ++ uni :: after →
       alpha_two_code uni ≠ "" →
       country uni ≠ "" →
       (∀ u', u' ∈ before → alpha_two_code u' = alpha_two_code uni → country u' = "") →
       code_to_country_name (load_universities_data universities) !! alpha_two_code uni
       = Some (country uni)).
Proof.
  unfold load_universities_data. split.
  - induction universities as [|uni unis IH] using rev_ind.
    + intros code display. simpl. by rewrite lookup_empty.
    + intros code display. rewrite foldl_snoc, load_university_names.
      destruct (_ && _ && _ && _) eqn:Hcond.
      * apply andb_true_iff in Hcond as [Hcond _].
        apply andb_true_iff in Hcond as [Hcond Hname%bool_decide_eq_true].
        apply andb_true_iff in Hcond as [->%bool_decide_eq_true Hcode%bool_decide_eq_true].
        intros [= <-]. split_and!; [done..|]. exists uni. split; [|done].
        apply elem_of_app. right. apply list_elem_of_here.
      * intros H. destruct (IH _ _ H) as (H1 & H2 & u & Hu & H3).
        split_and!; [done..|]. exists u. split; [|done]. apply elem_of_app. by left.
  - intros before uni after -> Hcode Hname Hbefore. rewrite foldl_app. cbn [foldl].
    set (start := {| domain_to_country := ∅; institution_to_country := [];
                     code_to_country_name := ∅ |}).
    assert (Hnone : code_to_country_name (foldl load_university start before)
                    !! alpha_two_code uni = None).
    { clear -Hbefore. induction before as [|u before IH] using rev_ind; [done|].
      rewrite foldl_snoc, load_university_names.
      rewrite IH by (intros u' Hu'; apply Hbefore, elem_of_app; by left).
      destruct (decide (alpha_two_code uni = alpha_two_code u)) as [Heq|Hne].
      - rewrite (bool_decide_eq_false_2 (country u ≠ "")); [by rewrite !andb_false_r|].
        intros Hn. apply Hn. apply Hbefore; [|done]. apply elem_of_app. right.
        apply list_elem_of_here.
      - by rewrite (bool_decide_eq_false_2 (alpha_two_code uni = alpha_two_code u)). }
    induction after as [|u after IH] using rev_ind.
    + cbn [foldl]. rewrite load_university_names, Hnone.
      by rewrite !bool_decide_eq_true_2.
    + rewrite foldl_snoc, load_university_names, IH.
      by rewrite (bool_decide_eq_false_2 (Some (country uni) = None)), !andb_false_r.
Qed.

Lemma loaded_country_names_witness :
  Sample.directory
  = [ {| alpha_two_code := "US"; country := "United States";
         name := "Massachusetts Institute of Technology";
         domains := ["mit.edu"] |} ]
    ++ {| alpha_two_code := "CN"; country := "China";
          name := "Tsinghua University";
          domains := ["tsinghua.edu.cn"] |}
       :: [ {| alpha_two_code := ""; country := "Nowhere";
               name := "Lost College";
               domains := ["lost.example"] |} ]
  ∧ code_to_country_name Sample.ud !! "CN" = Some "China".
Proof.
  split; [reflexivity|].
  apply (proj2 (loaded_country_names Sample.directory)
           [ {| alpha_two_code := "US"; country := "United States";
                name := "Massachusetts Institute of Technology";
                domains := ["mit.edu"] |} ]
           {| alpha_two_code := "CN"; country := "China";
              name := "Tsinghua University"; domains := ["tsinghua.edu.cn"] |}
           [ {| alpha_two_code := ""; country := "Nowhere";
                name := "Lost College"; domains := ["lost.example"] |} ]
           eq_refl); [discriminate..|].
  intros u' ->%list_elem_of_singleton. discriminate.
Defined.

Lemma toefl_row_lookup (requirements : gmap string string)
    (row : option string * option string) (k : string) :
  (if bool_decide (PyStr.strip (default "" row.1) = "") then requirements
   else <[PyStr.lower (PyStr.strip (default "" row.1))
          := PyStr.strip (default "" row.2)]> requirements) !! k
  = if negb (bool_decide (PyStr.strip (default "" row.1) = ""))
       && bool_decide (PyStr.lower (PyStr.strip (default "" row.1)) = k)
    then Some (PyStr.strip (default "" row.2))
    else requirements !! k.
Proof.
  case_bool_decide; [done|]. cbn [negb andb]. case_bool_decide as Hk.
  - by rewrite Hk, lookup_insert_eq.
  - by rewrite lookup_insert_ne.
Qed.

(** X7. The TOEFL table built by [load_toefl_requirements] is keyed by
    non-empty lowercase country names only, and for a country of the
    file it gives the trimmed requirement of the last row whose trimmed,
    lowercased country is the same: a later row overwrites an earlier
    one, and rows without a country are skipped. *)
Theorem loaded_toefl (rows : list (option string * option string)) :
  (∀ k, is_Some (load_toefl_requirements rows !! k) → k ≠ "" ∧ PyStr.lower k = k)
  ∧ (∀ before c r after,
       rows = before ++ (Some c, r) :: after →
       PyStr.strip c ≠ "" →
       (∀ row, row ∈ after →
          PyStr.lower (PyStr.strip (default "" row.1)) ≠ PyStr.lower (PyStr.strip c)) →
       load_toefl_requirements rows !! PyStr.lower (PyStr.strip c)
       = Some (PyStr.strip (default "" r))).
Proof.
  unfold load_toefl_requirements. split.
  - induction rows as [|row rows IH] using rev_ind.
    + intros k. simpl. rewrite lookup_empty. by intros [? ?].
    + intros k. rewrite foldl_snoc. cbv beta. rewrite toefl_row_lookup.
      destruct (negb _ && _) eqn:Hcond; [|apply IH].
      apply andb_true_iff in Hcond as [Hc%negb_true_iff Hk%bool_decide_eq_true].
      apply bool_decide_eq_false in Hc. subst k. intros _.
      split; [by rewrite lower_empty|apply lower_idem].
  - intros before c r after -> Hc Hafter.
    induction after as [|row after IH] using rev_ind.
    + rewrite foldl_snoc. cbv beta. rewrite toefl_row_lookup. cbn [fst snd default].
      by rewrite bool_decide_eq_false_2, bool_decide_eq_true_2.
    + rewrite app_comm_cons, app_assoc, foldl_snoc. cbv beta.
      rewrite toefl_row_lookup.
      rewrite (bool_decide_eq_false_2
                 (PyStr.lower (PyStr.strip (default "" row.1))
                  = PyStr.lower (PyStr.strip c))).
      * rewrite andb_false_r. apply IH.
        intros row' Hrow'. apply Hafter, elem_of_app. by left.
      * apply Hafter, elem_of_app. right. apply list_elem_of_here.
Qed.

Lemma loaded_toefl_witness :
  Sample.toefl_rows
  = [(Some "United States", Some "Exempt")]
    ++ (Some " China ", Some "Required") :: [(None, Some "Exempt")]
  ∧ Sample.toefl !! "china" = Some "Required".
Proof.
  split; [reflexivity|].
  apply (proj2 (loaded_toefl Sample.toefl_rows)
           [(Some "United States", Some "Exempt")] " China " (Some "Required")
           [(None, Some "Exempt")] eq_refl).
  - vm_compute. discriminate.
  - intros row ->%list_elem_of_singleton. vm_compute. discriminate.
Defined.

End Loaders.

(** * Further properties of the label pass *)

Section PassFurther.

Import CountryMatching EnglishLabels.

Lemma no_invalid_rows (rows : list labelled) :
  (0 <? length (filter (fun r => no_country_mask r
                                 && negb (bool_decide (out_label r = (-1)%Z))) rows))%nat
    = false →
  Forall (fun r => no_country_mask r = true → out_label r = -1) rows.
Proof.
  intros Hcount. apply Nat.ltb_ge in Hcount.
  apply Nat.le_0_r, length_zero_iff_nil in Hcount.
  apply Forall_forall. intros r Hr Hmask.
  destruct (decide (out_label r = -1)) as [|Hne]; [done|]. exfalso.
  eapply (filter_nil_not_elem_of _ _ r Hcount); [|done].
  rewrite Hmask. simpl. by rewrite bool_decide_eq_false_2.
Qed.

Lemma some_invalid_rows (rows : list labelled) :
  Forall (fun r => no_country_mask r = true → out_label r = -1) rows →
  (0 <? length (filter (fun r => no_country_mask r
                                 && negb (bool_decide (out_label r = (-1)%Z))) rows))%nat
    = false.
Proof.
  intros Hall. apply Nat.ltb_ge.
  induction Hall as [|r rows Hr _ IH]; [done|].
  rewrite filter_cons. destruct (decide _) as [Hp|]; [|done]. exfalso.
  apply Is_true_true, andb_true_iff in Hp as [Hmask Hl%negb_true_iff].
  apply bool_decide_eq_false in Hl. by apply Hl, Hr.
Qed.

(** X8. The final validation, on any frame: afterwards no row without
    country data (cell missing, empty or blank) carries a label other
    than -1; every row keeps its input columns, and a row that has
    country data is left exactly as it was; and a second validation
    changes nothing more. *)
Theorem final_validation_sweep (rows : list labelled) :
  Forall (fun r => no_country_mask r = true → out_label r = -1)
    (final_validation rows)
  ∧ Forall2 (fun r r' => source_row r' = source_row r
                         ∧ (no_country_mask r = false → r' = r))
      rows (final_validation rows)
  ∧ final_validation (final_validation rows) = final_validation rows.
Proof.
  assert (H1 : Forall (fun r => no_country_mask r = true → out_label r = -1)
                 (final_validation rows)).
  { unfold final_validation. destruct (0 <? _)%nat eqn:Hcount.
    - apply Forall_fmap, Forall_forall. intros r _. simpl.
      destruct (no_country_mask r) eqn:Hmask; [done|]. by rewrite Hmask.
    - by apply no_invalid_rows. }
  split_and!; [exact H1| |].
  - unfold final_validation. destruct (0 <? _)%nat.
    + apply Forall2_fmap_r, Forall_Forall2_diag, Forall_forall. intros r _.
      simpl. destruct (no_country_mask r); simpl; (split; [reflexivity|]);
        [discriminate|reflexivity].
    + apply Forall_Forall2_diag, Forall_forall. by intros r _.
  - apply some_invalid_rows in H1. unfold final_validation at 1. by rewrite H1.
Qed.



(** X10. The self-reported country is additive: the country set of a
    freshly resolved row holds exactly the codes the resolver found and,
    when the self-reported country is usable, that country as well;
    the self-report never removes or replaces a resolved code. *)
Theorem self_report_additive (ud : university_data) (step3 : bool)
    (r : prepared) (code : string) :
  code ∈ country_set ud step3 r ↔
  code ∈ resolve_countries ud step3 r
  ∨ valid_current_country (current_country (row r)) = Some code.
Proof.
  unfold country_set, merge_current_country.
  destruct (valid_current_country (current_country (row r))) as [c|].
  - assert (Hadd : code ∈ ({[c]} ∪ resolve_countries ud step3 r : gset string) ↔
                   code ∈ resolve_countries ud step3 r ∨ Some c = Some code).
    { rewrite elem_of_union, elem_of_singleton. split.
      - intros [->|H]; [by right|by left].
      - intros [H|[= ->]]; [by right|by left]. }
    case_bool_decide as Hempty; [exact Hadd|].
    destruct (decide (c ∈ resolve_countries ud step3 r)) as [Hin|Hout].
    + rewrite (bool_decide_eq_true_2 _ Hin). simpl. split; [by left|].
      intros [H|[= <-]]; done.
    + rewrite (bool_decide_eq_false_2 _ Hout). simpl. exact Hadd.
  - split; [by left|]. intros [H|H]; done.
Qed.

(** X11. A row that goes through resolution is unknown exactly when
    there is no country at all: the loop gives it the label -1, and
    equally a missing country cell, if and only if neither the resolver
    nor the self-report produced a country; otherwise the country cell
    is the codes of the set joined with a semicolon and a blank, each
    code once and in ascending order. *)
Theorem fresh_row_unknown_iff (ud : university_data) (toefl : gmap string string)
    (step3 : bool) (r : prepared) :
  (label (label_fresh ud toefl step3 r) = -1 ↔ country_set ud step3 r = ∅)
  ∧ (countries (label_fresh ud toefl step3 r) = None ↔ country_set ud step3 r = ∅)
  ∧ (country_set ud step3 r ≠ ∅ →
     ∃ codes,
       countries (label_fresh ud toefl step3 r) = Some (PyStr.join "; " codes)
       ∧ Sorted String.le codes ∧ NoDup codes
       ∧ ∀ c, c ∈ codes ↔ c ∈ country_set ud step3 r).
Proof.
  assert (Hcases :
    (country_set ud step3 r = ∅
     ∧ label (label_fresh ud toefl step3 r) = -1
     ∧ countries (label_fresh ud toefl step3 r) = None)
    ∨ (country_set ud step3 r ≠ ∅
       ∧ (label (label_fresh ud toefl step3 r) = 0
          ∨ label (label_fresh ud toefl step3 r) = 1)
       ∧ countries (label_fresh ud toefl step3 r)
         = Some (PyStr.join "; " (sorted (country_set ud step3 r))))).
  { destruct (decide (country_set ud step3 r = ∅)) as [Hempty|Hne].
    - left. split; [done|]. unfold label_fresh. fold (country_set ud step3 r).
      rewrite Hempty. destruct (negb _ && negb _); by rewrite ?bool_decide_eq_true_2.
    - right. split; [done|]. rewrite (label_fresh_flag _ _ _ _ Hne).
      split; [apply english_flag_of_range|].
      unfold label_fresh. fold (country_set ud step3 r).
      destruct (negb _ && negb _) eqn:Hboth; [|by rewrite bool_decide_eq_false_2].
      exfalso. apply Hne. apply andb_true_iff in Hboth as [H1 H2].
      apply negb_true_iff, bool_decide_eq_false in H1, H2.
      unfold country_set.
      destruct (valid_current_country (current_country (row r))); [by destruct H2|].
      simpl. by destruct (decide (resolve_countries ud step3 r = ∅)). }
  destruct Hcases as [(He & Hl & Hc)|(Hne & Hl & Hc)].
  - rewrite Hl, Hc, He. split_and!; done.
  - split_and!.
    + split; [|done]. intros Hm. rewrite Hm in Hl. by destruct Hl.
    + rewrite Hc. split; done.
    + intros _. exists (sorted (country_set ud step3 r)). split; [done|].
      unfold sorted. split_and!.
      * apply Sorted_merge_sort. apply _.
      * rewrite merge_sort_Permutation. apply NoDup_elements.
      * intros c. rewrite merge_sort_Permutation. apply elem_of_elements.
Qed.

End PassFurther.

(** * The merge of papers and labels *)

Section Merge.

Import MergePapers.

Lemma author_language_map_snoc profiles r k :
  author_language_map (profiles ++ [r]) !! k
  = if negb (bool_decide (author_name (source_row r) = ""))
       && bool_decide (author_name (source_row r) = k)
    then Some (out_label r)
    else author_language_map profiles !! k.
Proof.
  unfold author_language_map. rewrite foldl_snoc. cbv beta zeta.
  case_bool_decide as Hempty; [done|]. cbn [negb andb]. case_bool_decide as Hk.
  - by rewrite Hk, lookup_insert_eq.
  - by rewrite lookup_insert_ne.
Qed.

(** X12. The label a paper receives in the merge: -1 when its first
    author is empty or is no author of the profile frame; otherwise the
    label of the last profile row with that author name, which with
    distinct author names is the label of the author's only row. *)
Theorem paper_label_join (profiles : list labelled) (first_author : string) :
  (first_author = "" →
     paper_label (author_language_map profiles) first_author = -1)
  ∧ (first_author ∉ (author_name ∘ source_row <$> profiles) →
     paper_label (author_language_map profiles) first_author = -1)
  ∧ (∀ before r after,
       profiles = before ++ r :: after →
       author_name (source_row r) = first_author →
       first_author ≠ "" →
       (∀ r', r' ∈ after → author_name (source_row r') ≠ first_author) →
       paper_label (author_language_map profiles) first_author = out_label r).
Proof.
  split_and!.
  - intros ->. reflexivity.
  - intros Hout. unfold paper_label. case_bool_decide; [done|].
    assert (Hnone : author_language_map profiles !! first_author = None);
      [|by rewrite Hnone].
    induction profiles as [|r profiles IH] using rev_ind; [done|].
    rewrite author_language_map_snoc.
    rewrite fmap_app, elem_of_app in Hout.
    rewrite (bool_decide_eq_false_2 (author_name (source_row r) = first_author)).
    + rewrite andb_false_r. apply IH. intros Hin. apply Hout. by left.
    + intros Heq. apply Hout. right. rewrite <- Heq. apply list_elem_of_here.
  - intros before r after -> Hname Hne Hafter. unfold paper_label.
    rewrite bool_decide_eq_false_2 by done.
    assert (Hsome : author_language_map (before ++ r :: after) !! first_author
                    = Some (out_label r)); [|by rewrite Hsome].
    induction after as [|r' after IH] using rev_ind.
    + rewrite author_language_map_snoc, Hname.
      by rewrite bool_decide_eq_false_2, bool_decide_eq_true_2.
    + rewrite app_comm_cons, app_assoc, author_language_map_snoc.
      rewrite (bool_decide_eq_false_2 (author_name (source_row r') = first_author)).
      * rewrite andb_false_r. apply IH. intros x Hx. apply Hafter, elem_of_app. by left.
      * apply Hafter, elem_of_app. right. apply list_elem_of_here.
Qed.

Lemma paper_label_join_witness :
  Sample.first_frame
  = [] ++ {| source_row := Sample.ada; out_countries := Some "CN; US"; out_label := 1 |}
       :: [ {| source_row := Sample.eve; out_countries := None; out_label := -1 |} ]
  ∧ paper_label (author_language_map Sample.first_frame) "Ada" = 1.
Proof.
  split; [reflexivity|].
  apply (proj2 (proj2 (paper_label_join Sample.first_frame "Ada")) []
           {| source_row := Sample.ada; out_countries := Some "CN; US"; out_label := 1 |}
           [ {| source_row := Sample.eve; out_countries := None; out_label := -1 |} ]
           eq_refl eq_refl); [discriminate|].
  intros r' ->%list_elem_of_singleton. discriminate.
Defined.

End Merge.
